(** * Saving extracted images to disk: [nv_ingest_client/util/image_disk_utils.py]

    A shallow embedding of the three entry points of the module
    ([save_images_to_disk], [save_images_from_response],
    [save_images_from_ingestor_results]) and the properties of its
    specification.

    Modelling choices, in the order in which the file introduces them:
    - ingestion results are JSON-shaped Python values ([pyval]); a dict is a
      [gmap] from string keys;
    - a [str] is the sequence of the bytes of its UTF-8 encoding;
      [str.lower] / [str.upper] map the letters of a string of ASCII
      characters one by one, and are Unicode's case mapping, taken from the
      environment, on any other string;
    - [os.path] is the POSIX flavour ([posixpath]);
    - everything the module obtains from outside (the file system, the
      base64 codec, the imaging library, the filename sanitiser of
      [nv_ingest_client.client.util.processing], the case mapping of
      Unicode) is a field of the class [Runtime]; the theorems hold for
      every instance;
    - Python code runs in a state-and-exception monad [M]; the state holds
      the file system, the trace of observable events (directory creations,
      image writes, log lines) and the dict [image_counts], which the loop
      mutates in place. *)

From Stdlib Require Import ZArith String Ascii DecimalString DecimalNat Lia.
From Stdlib Require Strings.Byte.
From Stdlib Require Floats.SpecFloat.
From stdpp Require Import base option gmap strings list.

Local Open Scope string_scope.
Local Open Scope Z_scope.

(** ** Python values *)

#[local] Unset Elimination Schemes.
Inductive pyval : Type :=
| PNone
| PBool (b : bool)
| PInt (z : Z)
| PFloat (f : SpecFloat.spec_float)
| PStr (s : string)
| PList (l : list pyval)
| PDict (d : gmap string pyval).
#[local] Set Elimination Schemes.

(** [bool(v)], as used by [if not v]. *)
Definition py_truthy (v : pyval) : bool :=
  match v with
  | PNone => false
  | PBool b => b
  | PInt z => negb (z =? 0)
  | PFloat f => match f with SpecFloat.S754_zero _ => false | _ => true end
  | PStr s => negb (bool_decide (s = ""))
  | PList l => negb (bool_decide (l = []))
  | PDict d => negb (bool_decide (d = ∅))
  end.

(** [v == "literal"]: a string equals only the same string. *)
Definition py_eq_str (v : pyval) (s : string) : bool :=
  match v with
  | PStr x => bool_decide (x = s)
  | _ => false
  end.

(** [v in [s1, s2, ...]] for a list of string literals. *)
Definition py_in_strs (v : pyval) (l : list string) : bool :=
  existsb (py_eq_str v) l.

(** ** Exceptions and results *)

(** The exceptions that [except Exception] catches. *)
Inductive exn : Type :=
| AttributeError
| TypeError
| KeyError
| ValueError
| OSError
| Base64Error               (* binascii.Error *)
| UnidentifiedImageError
| OtherError (name : string).

Inductive result (A : Type) : Type :=
| Ok (a : A)
| Raise (e : exn).
Arguments Ok {A} a.
Arguments Raise {A} e.

#[export] Instance result_ret : MRet result := λ A a, Ok a.

#[export] Instance result_bind : MBind result := λ A B f r,
  match r with
  | Ok a => f a
  | Raise e => Raise e
  end.

(** [obj.get(key, default)]: only a dict has the method. *)
Definition py_get (obj : pyval) (key : string) (dflt : pyval) : result pyval :=
  match obj with
  | PDict d => Ok (default dflt (d !! key))
  | _ => Raise AttributeError
  end.

(** A parameter that the callee needs to be a [str]. *)
Definition expect_str (v : pyval) : result string :=
  match v with
  | PStr s => Ok s
  | _ => Raise TypeError
  end.

(** Iteration, as performed by [enumerate(v)]. *)
Definition py_iter (v : pyval) : result (list pyval) :=
  match v with
  | PList l => Ok l
  | PStr s => Ok ((λ c, PStr (String c "")) <$> list_ascii_of_string s)
  | PDict d => Ok ((λ kv, PStr kv.1) <$> map_to_list d)
  | _ => Raise TypeError
  end.

(** ** Strings *)

Definition ascii_lower (c : ascii) : ascii :=
  let n := N_of_ascii c in
  if ((65 <=? n) && (n <=? 90))%N then ascii_of_N (n + 32) else c.

Definition ascii_upper (c : ascii) : ascii :=
  let n := N_of_ascii c in
  if ((97 <=? n) && (n <=? 122))%N then ascii_of_N (n - 32) else c.

Fixpoint str_map (f : ascii → ascii) (s : string) : string :=
  match s with
  | EmptyString => EmptyString
  | String c r => String (f c) (str_map f r)
  end.

(** Every character of the string is an ASCII one. A [str] is held as the
    bytes of its UTF-8 encoding, so a character outside ASCII shows as bytes
    from 128 on. *)
Fixpoint is_ascii (s : string) : bool :=
  match s with
  | EmptyString => true
  | String c r => (N_of_ascii c <? 128)%N && is_ascii r
  end.

Definition str_of_nat (n : nat) : string := NilZero.string_of_uint (Nat.to_uint n).
Definition str_of_Z (z : Z) : string := NilZero.string_of_int (Z.to_int z).

Definition starts_with_slash (s : string) : bool :=
  match s with
  | String c _ => bool_decide (c = "/"%char)
  | EmptyString => false
  end.

Fixpoint ends_with_slash (s : string) : bool :=
  match s with
  | EmptyString => false
  | String c EmptyString => bool_decide (c = "/"%char)
  | String _ r => ends_with_slash r
  end.

(** [posixpath.join(a, b)]. *)
Definition os_path_join (a b : string) : string :=
  if starts_with_slash b then b
  else if bool_decide (a = "") || ends_with_slash a then a ++ b
  else a ++ "/" ++ b.

(** [posixpath.basename(p)]: what follows the last slash. *)
Fixpoint basename_from (acc p : string) : string :=
  match p with
  | EmptyString => acc
  | String c r =>
      if bool_decide (c = "/"%char) then basename_from "" r
      else basename_from (acc ++ String c "") r
  end.

Definition os_path_basename (p : string) : string := basename_from "" p.

(** ** The keyword arguments of the exporter *)

Record flags : Type := Flags {
  save_charts : bool;
  save_tables : bool;
  save_infographics : bool;
  save_page_images : bool;
  save_raw_images : bool;
  count_images : bool;
  organize_by_type : bool
}.

(** The defaults of the signature of [save_images_to_disk]. *)
Definition default_flags : flags :=
  {| save_charts := true; save_tables := true; save_infographics := true;
     save_page_images := false; save_raw_images := false;
     count_images := true; organize_by_type := true |}.

(** ** Observable events *)

Inductive level : Type := DEBUG | INFO | WARNING | ERROR.

(** One constructor per logging call of the module, with the values that
    the f-string interpolates. *)
Inductive message : Type :=
| MsgNoResponseData                                        (* line 84 *)
| MsgSavedImage (subtype path : string)                    (* line 163 *)
| MsgFailedSave (subtype clean_source_name : string) (e : exn)   (* line 166 *)
| MsgFailedProcess (doc_idx : nat) (e : exn)               (* line 169 *)
| MsgSavedTotal (total : Z) (output_directory : string)    (* line 174 *)
| MsgSavedByType (img_type : string) (count : Z)           (* line 177 *)
| MsgNoImagesSaved                                         (* line 179 *)
| MsgNoDataInResponse.                                     (* line 204 *)

(** Calls that reach outside the process carry their outcome: [None] when
    the call returned, [Some e] when it raised [e]. *)
Inductive event : Type :=
| EvMakedirs (path : string) (outcome : option exn)
| EvSave (path format : string) (outcome : option exn)
| EvLog (lvl : level) (msg : message).

(** The files that image writes of a trace have produced. *)
Definition files_written (t : list event) : list string :=
  omap (λ ev, match ev with EvSave p _ None => Some p | _ => None end) t.

(** The directories that a trace has asked for. *)
Definition dirs_requested (t : list event) : list string :=
  omap (λ ev, match ev with EvMakedirs p _ => Some p | _ => None end) t.

(** ** What the module takes from its environment *)

Class Runtime : Type := {
  (** the state of the file system *)
  world : Type;
  (** an opened image *)
  image : Type;
  (** [os.makedirs(path, exist_ok=True)] *)
  os_makedirs : string → world → option exn * world;
  (** [base64.b64decode(s)] on a [str] *)
  b64decode : string → result (list Byte.byte);
  (** [Image.open(io.BytesIO(data))] *)
  image_open : list Byte.byte → result image;
  (** [image.save(path, format=fmt)] *)
  image_save : image → string → string → world → option exn * world;
  (** [get_valid_filename] of [nv_ingest_client.client.util.processing],
      which is not part of the file under study *)
  get_valid_filename : string → result string;
  (** [str(v)] for the values whose rendering the module never relies on:
      floats, lists and dicts *)
  py_repr : pyval → string;
  (** [s.lower()] and [s.upper()] on a string that holds characters outside
      ASCII: the case mapping of Unicode, which may change the length *)
  unicode_lower : string → string;
  unicode_upper : string → string
}.

Section Exporter.
Context `{RT : Runtime}.

(** [s.lower()] and [s.upper()]: on a string of ASCII characters the
    letters are mapped one by one and nothing else changes; on any other
    string the mapping is Unicode's. *)
Definition str_lower (s : string) : string :=
  if is_ascii s then str_map ascii_lower s else unicode_lower s.

Definition str_upper (s : string) : string :=
  if is_ascii s then str_map ascii_upper s else unicode_upper s.

(** [v.lower()]: only a [str] has the method. *)
Definition py_lower (v : pyval) : result string :=
  match v with
  | PStr s => Ok (str_lower s)
  | _ => Raise AttributeError
  end.

(** What an f-string writes for [{v}]. *)
Definition py_str (v : pyval) : string :=
  match v with
  | PNone => "None"
  | PBool true => "True"
  | PBool false => "False"
  | PInt z => str_of_Z z
  | PStr s => s
  | _ => py_repr v
  end.

(** [base64.b64decode(v)]: anything but a [str] is a [TypeError] (the
    records hold no [bytes]). *)
Definition py_b64decode (v : pyval) : result (list Byte.byte) :=
  match v with
  | PStr s => b64decode s
  | _ => Raise TypeError
  end.

(** ** State and monad *)

Record state : Type := State {
  st_world : world;
  st_trace : list event;
  (** the local dict [image_counts] of the running call *)
  image_counts : gmap string Z
}.

Definition M (A : Type) : Type := state → result A * state.

#[export] Instance M_ret : MRet M := λ A a s, (Ok a, s).

#[export] Instance M_bind : MBind M := λ A B f m s,
  match m s with
  | (Ok a, s') => f a s'
  | (Raise e, s') => (Raise e, s')
  end.

(** [try: m / except Exception as e: h e]; what [m] did before it raised
    stays done. *)
Definition try_catch {A} (m : M A) (h : exn → M A) : M A := λ s,
  match m s with
  | (Ok a, s') => (Ok a, s')
  | (Raise e, s') => h e s'
  end.

Definition lift {A} (r : result A) : M A := λ s, (r, s).

Definition emit (ev : event) : M unit := λ s,
  (Ok (), State (st_world s) (st_trace s ++ [ev]) (image_counts s)).

Definition log (lvl : level) (msg : message) : M unit := emit (EvLog lvl msg).

Definition makedirs (path : string) : M unit := λ s,
  let '(r, w) := os_makedirs path (st_world s) in
  let s' := State w (st_trace s ++ [EvMakedirs path r]) (image_counts s) in
  match r with
  | None => (Ok (), s')
  | Some e => (Raise e, s')
  end.

Definition save (img : image) (path fmt : string) : M unit := λ s,
  let '(r, w) := image_save img path fmt (st_world s) in
  let s' := State w (st_trace s ++ [EvSave path fmt r]) (image_counts s) in
  match r with
  | None => (Ok (), s')
  | Some e => (Raise e, s')
  end.

Definition get_counts : M (gmap string Z) := λ s, (Ok (image_counts s), s).

Definition set_counts (c : gmap string Z) : M unit := λ s,
  (Ok (), State (st_world s) (st_trace s) c).

(** [image_counts[key] += 1]: the read comes first, so an unhashable key
    is a [TypeError] and an absent one a [KeyError], and the dict is left
    as it was. *)
Definition counts_incr (key : pyval) : M unit := λ s,
  match key with
  | PStr k =>
      match image_counts s !! k with
      | Some n =>
          (Ok (), State (st_world s) (st_trace s) (<[k := n + 1]> (image_counts s)))
      | None => (Raise KeyError, s)
      end
  | PList _ | PDict _ => (Raise TypeError, s)
  | _ => (Raise KeyError, s)
  end.

(** [image_counts[k]] for a string literal [k]. *)
Definition counts_getitem (k : string) : M Z := λ s,
  match image_counts s !! k with
  | Some n => (Ok n, s)
  | None => (Raise KeyError, s)
  end.

(** ** [save_images_to_disk] *)

Definition named_subtypes : list string :=
  ["chart"; "table"; "infographic"; "page_image"].

(** Line 88. *)
Definition initial_counts : gmap string Z :=
  <["chart" := 0]> (<["table" := 0]> (<["infographic" := 0]>
    (<["page_image" := 0]> (<["image" := 0]> (<["total" := 0]> ∅))))).

(** The keys of [image_counts] in the order of the literal of line 88,
    which is the order in which [items()] walks the dict. *)
Definition key_order : list string :=
  ["chart"; "table"; "infographic"; "page_image"; "image"; "total"].

Definition counts_items (c : gmap string Z) : list (string * Z) :=
  omap (λ k, (λ n, (k, n)) <$> c !! k) key_order.

Section Call.
Variable output_directory : string.
Variable fl : flags.

(** Lines 112-128: the pair of [should_save] and of [subtype] after the
    chain of conditions. *)
Definition apply_filter (doc_type subtype : pyval) : bool * pyval :=
  if py_eq_str subtype "chart" && save_charts fl then (true, subtype)
  else if py_eq_str subtype "table" && save_tables fl then (true, subtype)
  else if py_eq_str subtype "infographic" && save_infographics fl then (true, subtype)
  else if py_eq_str subtype "page_image" && save_page_images fl then (true, subtype)
  else if py_eq_str doc_type "image"
          && negb (py_in_strs subtype named_subtypes)
          && save_raw_images fl
       then (true, PStr "image")
  else (false, subtype).

(** Lines 133-137. *)
Definition determine_image_type (metadata doc_type : pyval) : result string :=
  if py_eq_str doc_type "image" then
    image_metadata ← py_get metadata "image_metadata" (PDict ∅);
    image_type ← py_get image_metadata "image_type" (PStr "png");
    py_lower image_type
  else Ok "png".

(** Lines 139-147. [os.path.join] raises [TypeError] on a component that is
    not a [str]. *)
Definition build_image_path (doc_idx : nat) (clean_source_name : string)
    (subtype page_number : pyval) (image_type : string) : M string :=
  if organize_by_type fl then
    sub ← lift (expect_str subtype);
    let type_dir := os_path_join output_directory sub in
    makedirs type_dir;;
    let image_filename :=
      clean_source_name ++ "_p" ++ py_str page_number ++ "_"
        ++ str_of_nat doc_idx ++ "." ++ image_type in
    mret (os_path_join type_dir image_filename)
  else
    let image_filename :=
      clean_source_name ++ "_" ++ py_str subtype ++ "_p" ++ py_str page_number
        ++ "_" ++ str_of_nat doc_idx ++ "." ++ image_type in
    mret (os_path_join output_directory image_filename).

(** Line 156. *)
Definition image_ext_of (image_type : string) : string :=
  if bool_decide (image_type = "jpeg") then "jpg" else image_type.

(** Lines 151-163: the body of the inner [try]. *)
Definition save_image_body (image_content subtype : pyval)
    (image_type image_path : string) : M unit :=
  image_data ← lift (py_b64decode image_content);
  img ← lift (image_open image_data);
  let image_ext := image_ext_of image_type in
  save img image_path (str_upper image_ext);;
  counts_incr subtype;;
  counts_incr (PStr "total");;
  log DEBUG (MsgSavedImage (py_str subtype) image_path).

(** Lines 150-166: the inner [try] with its handler. *)
Definition save_image (image_content subtype : pyval)
    (clean_source_name image_type image_path : string) : M unit :=
  try_catch
    (save_image_body image_content subtype image_type image_path)
    (λ e, log ERROR (MsgFailedSave (py_str subtype) clean_source_name e)).

(** Lines 95-166: the body of the outer [try]. Each [continue] ends the
    body with nothing more done. *)
Definition document_body (doc_idx : nat) (document : pyval) : M unit :=
  metadata ← lift (py_get document "metadata" (PDict ∅));
  doc_type ← lift (py_get document "document_type" (PStr "unknown"));
  image_content ← lift (py_get metadata "content" PNone);
  if negb (py_truthy image_content) then mret ()
  else
    source_metadata ← lift (py_get metadata "source_metadata" (PDict ∅));
    source_id ← lift (py_get source_metadata "source_id"
                        (PStr ("document_" ++ str_of_nat doc_idx)));
    source_path ← lift (expect_str source_id);
    clean_source_name ← lift (get_valid_filename (os_path_basename source_path));
    content_metadata ← lift (py_get metadata "content_metadata" (PDict ∅));
    subtype0 ← lift (py_get content_metadata "subtype" (PStr "image"));
    page_number ← lift (py_get content_metadata "page_number" (PInt 0));
    let '(should_save, subtype) := apply_filter doc_type subtype0 in
    if negb should_save then mret ()
    else
      image_type ← lift (determine_image_type metadata doc_type);
      image_path ← build_image_path doc_idx clean_source_name subtype
                      page_number image_type;
      save_image image_content subtype clean_source_name image_type image_path.

(** Lines 94-170: one turn of the loop. *)
Definition process_document (doc_idx : nat) (document : pyval) : M unit :=
  try_catch (document_body doc_idx document)
            (λ e, log ERROR (MsgFailedProcess doc_idx e)).

(** Line 93: [for doc_idx, document in enumerate(...)], from [doc_idx] on. *)
Fixpoint process_all (doc_idx : nat) (documents : list pyval) : M unit :=
  match documents with
  | [] => mret ()
  | document :: rest =>
      process_document doc_idx document;; process_all (S doc_idx) rest
  end.

(** Lines 175-177. *)
Fixpoint log_items (items : list (string * Z)) : M unit :=
  match items with
  | [] => mret ()
  | (img_type, count) :: rest =>
      (if negb (bool_decide (img_type = "total")) && (0 <? count)
       then log INFO (MsgSavedByType img_type count)
       else mret ());;
      log_items rest
  end.

(** Lines 172-179. *)
Definition log_summary : M unit :=
  some_saved ← (if count_images fl
                then total ← counts_getitem "total"; mret (0 <? total)
                else mret false);
  if (some_saved : bool) then
    total ← counts_getitem "total";
    log INFO (MsgSavedTotal total output_directory);;
    c ← get_counts;
    log_items (counts_items c)
  else if count_images fl then log INFO MsgNoImagesSaved
  else mret ().

Definition save_images_to_disk (response_data : pyval) : M (gmap string Z) :=
  if negb (py_truthy response_data) then
    log WARNING MsgNoResponseData;;
    mret ∅
  else
    set_counts initial_counts;;
    makedirs output_directory;;
    documents ← lift (py_iter response_data);
    process_all 0 documents;;
    log_summary;;
    get_counts.

(** ** [save_images_from_response] *)

Definition save_images_from_response (response : gmap string pyval)
    : M (gmap string Z) :=
  match response !! "data" with
  | None => log WARNING MsgNoDataInResponse;; mret ∅
  | Some data =>
      if negb (py_truthy data) then log WARNING MsgNoDataInResponse;; mret ∅
      else save_images_to_disk data
  end.

(** ** [save_images_from_ingestor_results] *)

(** Lines 233-238, with [all_documents] as the accumulator. *)
Fixpoint flatten_results (results : list pyval) (all_documents : list pyval)
    : list pyval :=
  match results with
  | [] => all_documents
  | doc_results :: rest =>
      flatten_results rest
        (match doc_results with
         | PList l => all_documents ++ l
         | _ => all_documents ++ [doc_results]
         end)
  end.

Definition save_images_from_ingestor_results (results : list pyval)
    : M (gmap string Z) :=
  save_images_to_disk (PList (flatten_results results [])).

End Call.
End Exporter.

(** ** A concrete runtime

    A small file system, a base64 decoder and an image library that knows
    two signatures; strings with characters outside ASCII keep their case.
    The general theorems hold for every runtime; this one serves to run
    the exporter on concrete records. *)

(** The characters that are safe in a file name: letters, digits, [-], [_]
    and [.]. *)
Definition safe_char (c : ascii) : bool :=
  let n := N_of_ascii c in
  ((65 <=? n) && (n <=? 90) || (97 <=? n) && (n <=? 122)
   || (48 <=? n) && (n <=? 57)
   || (n =? 45) || (n =? 95) || (n =? 46))%N.

(** Modelled from the spec: [get_valid_filename] is defined in
    [nv_ingest_client/client/util/processing.py], which is not among the
    sources. The specification describes it as a sanitisation routine that
    strips or replaces the characters unsafe for file names and is
    deterministic and idempotent. The model keeps the safe characters,
    writes [_] for a space and drops every other character. *)
Fixpoint get_valid_filename_model (name : string) : string :=
  match name with
  | EmptyString => EmptyString
  | String c r =>
      if bool_decide (c = " "%char) then String "_" (get_valid_filename_model r)
      else if safe_char c then String c (get_valid_filename_model r)
      else get_valid_filename_model r
  end.

Record toy_fs : Type := ToyFs {
  fs_dirs : list string;
  fs_files : list (string * list Byte.byte)
}.

(** [os.makedirs] refuses the empty path and a path that names a file. *)
Definition toy_makedirs (path : string) (w : toy_fs) : option exn * toy_fs :=
  if bool_decide (path = "") || bool_decide (path ∈ (fs_files w).*1)
  then (Some OSError, w)
  else (None, ToyFs (path :: fs_dirs w) (fs_files w)).

Definition b64_value (c : ascii) : option N :=
  let n := N_of_ascii c in
  (if (65 <=? n) && (n <=? 90) then Some (n - 65)
   else if (97 <=? n) && (n <=? 122) then Some (n - 71)
   else if (48 <=? n) && (n <=? 57) then Some (n + 4)
   else if n =? 43 then Some 62
   else if n =? 47 then Some 63
   else None)%N.

Definition byte_of_N (n : N) : Byte.byte := byte_of_ascii (ascii_of_N (n mod 256)).

Fixpoint b64_bytes (digits : list N) : list Byte.byte :=
  (match digits with
   | a :: b :: c :: d :: rest =>
       byte_of_N (a * 4 + b / 16) :: byte_of_N (b * 16 + c / 4)
         :: byte_of_N (c * 64 + d) :: b64_bytes rest
   | [a; b; c] => [byte_of_N (a * 4 + b / 16); byte_of_N (b * 16 + c / 4)]
   | [a; b] => [byte_of_N (a * 4 + b / 16)]
   | _ => []
   end)%N.

(** Characters outside the alphabet are skipped, as [b64decode] does without
    [validate]; a length that the padding does not complete is an error. *)
Definition toy_b64decode (s : string) : result (list Byte.byte) :=
  let cs := list_ascii_of_string s in
  let digits := omap b64_value cs in
  let pads := length (filter (λ c, c = "="%char) cs) in
  match (length digits mod 4)%nat with
  | O => Ok (b64_bytes digits)
  | S O => Raise Base64Error
  | r => if (4 - r <=? pads)%nat then Ok (b64_bytes digits) else Raise Base64Error
  end.

#[export] Instance byte_eq_dec : EqDecision Byte.byte := Strings.Byte.byte_eq_dec.

Definition png_signature : list Byte.byte :=
  [Byte.x89; Byte.x50; Byte.x4e; Byte.x47; Byte.x0d; Byte.x0a; Byte.x1a; Byte.x0a].

Definition jpeg_signature : list Byte.byte := [Byte.xff; Byte.xd8; Byte.xff].

Definition toy_image_open (data : list Byte.byte) : result (list Byte.byte) :=
  if bool_decide (take 8 data = png_signature)
     || bool_decide (take 3 data = jpeg_signature)
  then Ok data else Raise UnidentifiedImageError.

(** The format names that the imaging library registers; [JPG] is not one
    of them. *)
Definition toy_formats : list string := ["PNG"; "JPEG"; "GIF"; "BMP"; "TIFF"; "WEBP"].

Definition toy_image_save (img : list Byte.byte) (path fmt : string) (w : toy_fs)
    : option exn * toy_fs :=
  if bool_decide (fmt ∈ toy_formats)
  then (None, ToyFs (fs_dirs w) ((path, img) :: fs_files w))
  else (Some KeyError, w).

#[export] Instance toy_runtime : Runtime := {|
  world := toy_fs;
  image := list Byte.byte;
  os_makedirs := toy_makedirs;
  b64decode := toy_b64decode;
  image_open := toy_image_open;
  image_save := toy_image_save;
  get_valid_filename := λ name, Ok (get_valid_filename_model name);
  py_repr := λ _, "<object>";
  unicode_lower := λ s, s;
  unicode_upper := λ s, s
|}.

Definition toy_state : @state toy_runtime := State (ToyFs [] []) [] ∅.

(** The eight bytes of the PNG signature, in base64. *)
Definition png_b64 : string := "iVBORw0KGgo=".

(** The first four bytes of a JFIF file, in base64. *)
Definition jpeg_b64 : string := "/9j/4A==".

Definition mk_dict (l : list (string * pyval)) : pyval := PDict (list_to_map l).

(** * Vocabulary of the properties *)

(** The five categories that carry a counter of their own. *)
Definition categories : list string :=
  ["chart"; "table"; "infographic"; "page_image"; "image"].

(** All six keys are present and the total is the sum of the others. *)
Definition total_is_sum (c : gmap string Z) : Prop :=
  ∃ ch tb ig pg im : Z,
    c !! "chart" = Some ch ∧ c !! "table" = Some tb ∧
    c !! "infographic" = Some ig ∧ c !! "page_image" = Some pg ∧
    c !! "image" = Some im ∧ c !! "total" = Some (ch + tb + ig + pg + im).

(** The save flag that goes with a named subtype. *)
Definition flag_for (fl : flags) (name : string) : bool :=
  if bool_decide (name = "chart") then save_charts fl
  else if bool_decide (name = "table") then save_tables fl
  else if bool_decide (name = "infographic") then save_infographics fl
  else if bool_decide (name = "page_image") then save_page_images fl
  else false.

(** The inclusion rule in the words of the specification: the subtype is
    one of the four named categories and its flag is on, or the record is an
    image of none of the four and the raw-image flag is on. *)
Definition named_and_enabled (fl : flags) (subtype : pyval) : Prop :=
  ∃ name, name ∈ named_subtypes ∧ subtype = PStr name ∧ flag_for fl name = true.

Definition raw_and_enabled (fl : flags) (doc_type subtype : pyval) : Prop :=
  doc_type = PStr "image"
  ∧ (∀ name, name ∈ named_subtypes → subtype ≠ PStr name)
  ∧ save_raw_images fl = true.

Definition inclusion_rule (fl : flags) (doc_type subtype : pyval) : Prop :=
  named_and_enabled fl subtype ∨ raw_and_enabled fl doc_type subtype.

(** The naming scheme in the words of the specification. *)
Definition image_path_of (output_directory : string) (fl : flags) (doc_idx : nat)
    (basename category page_number ext : string) : string :=
  if organize_by_type fl then
    os_path_join (os_path_join output_directory category)
      (basename ++ "_p" ++ page_number ++ "_" ++ str_of_nat doc_idx ++ "." ++ ext)
  else
    os_path_join output_directory
      (basename ++ "_" ++ category ++ "_p" ++ page_number ++ "_"
         ++ str_of_nat doc_idx ++ "." ++ ext).

(** A stretch of trace that holds log lines only. *)
Definition only_logs (t : list event) : Prop :=
  Forall (λ ev, ∃ lvl msg, ev = EvLog lvl msg) t.

(** Flattening in the words of the specification: the elements of each
    sublist in order, then those of the next element. *)
Definition flatten_spec (results : list pyval) : list pyval :=
  concat ((λ element, match element with PList l => l | _ => [element] end) <$> results).

Section Vocabulary.
Context `{RT : Runtime}.

(** A triple over the counters: from counters in [P], the computation ends
    with a result and counters in [Q]. *)
Definition hoare {A} (P : gmap string Z → Prop) (m : M A)
    (Q : result A → gmap string Z → Prop) : Prop :=
  ∀ s, P (image_counts s) → Q (m s).1 (image_counts (m s).2).

(** The computation maintains [I], however it ends. *)
Definition keeps (I : gmap string Z → Prop) {A} (m : M A) : Prop :=
  hoare I m (λ _, I).

(** The record is a dict whose fields, read the way lines 95-110 read them,
    have the given values. *)
Definition has_fields (doc_idx : nat) (document metadata doc_type image_content : pyval)
    (clean_source_name : string) (subtype page_number : pyval) : Prop :=
  ∃ (source_metadata source_id content_metadata : pyval) (source_path : string),
    py_get document "metadata" (PDict ∅) = Ok metadata
    ∧ py_get document "document_type" (PStr "unknown") = Ok doc_type
    ∧ py_get metadata "content" PNone = Ok image_content
    ∧ py_get metadata "source_metadata" (PDict ∅) = Ok source_metadata
    ∧ py_get source_metadata "source_id" (PStr ("document_" ++ str_of_nat doc_idx))
      = Ok source_id
    ∧ expect_str source_id = Ok source_path
    ∧ get_valid_filename (os_path_basename source_path) = Ok clean_source_name
    ∧ py_get metadata "content_metadata" (PDict ∅) = Ok content_metadata
    ∧ py_get content_metadata "subtype" (PStr "image") = Ok subtype
    ∧ py_get content_metadata "page_number" (PInt 0) = Ok page_number.

(** The state with one more event. *)
Definition with_event (s : state) (ev : event) : state :=
  State (st_world s) (st_trace s ++ [ev]) (image_counts s).

End Vocabulary.

(** A state of the concrete runtime with given counters. *)
Definition toy_state_with (c : gmap string Z) : @state toy_runtime :=
  State (ToyFs [] []) [] c.

(** ** Concrete records *)

(** The record of the scenario of the specification, for a payload
    [encoded]. *)
Definition scenario_record (encoded : string) : pyval :=
  mk_dict
    [("document_type", PStr "image");
     ("metadata",
      mk_dict
        [("content", PStr encoded);
         ("source_metadata", mk_dict [("source_id", PStr "a/b/report.pdf")]);
         ("content_metadata",
          mk_dict [("subtype", PStr "page_image"); ("page_number", PInt 2)]);
         ("image_metadata", mk_dict [("image_type", PStr "png")])])].

(** The flags of the scenario: the defaults and [save_page_images=True]. *)
Definition scenario_flags : flags :=
  {| save_charts := true; save_tables := true; save_infographics := true;
     save_page_images := true; save_raw_images := false;
     count_images := true; organize_by_type := true |}.

(** A chart of a structured document, with a payload and a source. *)
Definition chart_record (encoded source_id : string) : pyval :=
  mk_dict
    [("document_type", PStr "structured");
     ("metadata",
      mk_dict
        [("content", PStr encoded);
         ("source_metadata", mk_dict [("source_id", PStr source_id)]);
         ("content_metadata",
          mk_dict [("subtype", PStr "chart"); ("page_number", PInt 1)])])].

(** A chart that the ingestion has typed as a JPEG image. *)
Definition jpeg_chart_record : pyval :=
  mk_dict
    [("document_type", PStr "image");
     ("metadata",
      mk_dict
        [("content", PStr jpeg_b64);
         ("content_metadata", mk_dict [("subtype", PStr "chart")]);
         ("image_metadata", mk_dict [("image_type", PStr "jpeg")])])].

(** A record with metadata and no content. *)
Definition empty_record : pyval := mk_dict [("metadata", mk_dict [])].

(** * Vocabulary of the further properties *)

(** The writes that a trace has asked of the image library: path, format
    name and outcome. *)
Definition save_calls (t : list event) : list (string * string * option exn) :=
  omap (λ ev, match ev with EvSave p f r => Some (p, f, r) | _ => None end) t.

(** The paths of the writes that returned. *)
Definition written (calls : list (string * string * option exn)) : list string :=
  omap (λ call, match call with (p, _, None) => Some p | _ => None end) calls.

(** The flag that enables a category: the flag of the subtype for the four
    named ones, the raw-image flag for "image". *)
Definition category_enabled (fl : flags) (cat : string) : bool :=
  if bool_decide (cat = "image") then save_raw_images fl else flag_for fl cat.

(** No save flag is on. *)
Definition nothing_enabled (fl : flags) : Prop :=
  save_charts fl = false ∧ save_tables fl = false ∧ save_infographics fl = false
  ∧ save_page_images fl = false ∧ save_raw_images fl = false.

(** The same flags with another [count_images]. *)
Definition with_count_images (fl : flags) (b : bool) : flags :=
  {| save_charts := save_charts fl; save_tables := save_tables fl;
     save_infographics := save_infographics fl;
     save_page_images := save_page_images fl;
     save_raw_images := save_raw_images fl;
     count_images := b; organize_by_type := organize_by_type fl |}.

(** The character occurs in the string. *)
Fixpoint str_has (c : ascii) (s : string) : bool :=
  match s with
  | EmptyString => false
  | String x r => bool_decide (x = c) || str_has c r
  end.

(** What follows the last occurrence of a character. *)
Fixpoint after_last_from (c : ascii) (acc s : string) : string :=
  match s with
  | EmptyString => acc
  | String x r =>
      if bool_decide (x = c) then after_last_from c "" r
      else after_last_from c (acc ++ String x "") r
  end.

Definition after_last (c : ascii) (s : string) : string := after_last_from c "" s.

(** What precedes the first occurrence of a character. *)
Fixpoint before_first (c : ascii) (s : string) : string :=
  match s with
  | EmptyString => EmptyString
  | String x r => if bool_decide (x = c) then EmptyString else String x (before_first c r)
  end.

(** The lines that the summary of lines 172-179 writes for given counters:
    nothing without [count_images]; else the total followed by the
    categories that are not zero, in the order of the dict, or the one line
    that says that nothing was saved. *)
Definition summary_lines (output_directory : string) (fl : flags)
    (c : gmap string Z) : list event :=
  if count_images fl then
    if 0 <? default 0 (c !! "total") then
      EvLog INFO (MsgSavedTotal (default 0 (c !! "total")) output_directory)
      :: omap (λ cat, if 0 <? default 0 (c !! cat)
                      then Some (EvLog INFO (MsgSavedByType cat (default 0 (c !! cat))))
                      else None) categories
    else [EvLog INFO MsgNoImagesSaved]
  else [].

(** A record that the loop cannot read: it is not a dict, or its
    "metadata" is not one. *)
Definition malformed (document : pyval) : bool :=
  match document with
  | PDict d =>
      match default (PDict ∅) (d !! "metadata") with
      | PDict _ => false
      | _ => true
      end
  | _ => true
  end.

(** The directories that a call may ask for: the output directory, and
    with [organize_by_type] the directory of a category under it. *)
Definition expected_dir (output_directory : string) (fl : flags) (d : string) : Prop :=
  d = output_directory
  ∨ (organize_by_type fl = true
     ∧ ∃ cat, cat ∈ categories ∧ d = os_path_join output_directory cat).

Definition expected_event (output_directory : string) (fl : flags) (ev : event) : Prop :=
  match ev with
  | EvMakedirs d _ => expected_dir output_directory fl d
  | _ => True
  end.

Section FurtherVocabulary.
Context `{RT : Runtime}.

(** The computation only adds to the trace, and what it adds satisfies
    [phi]. *)
Definition emits {A} (phi : event → Prop) (m : M A) : Prop :=
  ∀ s, ∃ new, st_trace (m s).2 = (st_trace s ++ new)%list ∧ Forall phi new.

(** A triple over what a call lets one observe of the state: the counters
    and the writes asked of the image library. *)
Definition triple {A} (P : gmap string Z → list (string * string * option exn) → Prop)
    (m : M A)
    (Q : result A → gmap string Z → list (string * string * option exn) → Prop)
    : Prop :=
  ∀ s, P (image_counts s) (save_calls (st_trace s)) →
       Q (m s).1 (image_counts (m s).2) (save_calls (st_trace (m s).2)).

(** The write that the code prepares for a record at a position: the
    record has content, its fields can be read, the filter keeps it under
    [cat], and path and format name are those of lines 133-157. *)
Definition save_call_of (output_directory : string) (fl : flags) (doc_idx : nat)
    (document : pyval) (cat path fmt : string) : Prop :=
  ∃ metadata doc_type content clean subtype page_number image_type,
    has_fields doc_idx document metadata doc_type content clean subtype page_number
    ∧ py_truthy content = true
    ∧ apply_filter fl doc_type subtype = (true, PStr cat)
    ∧ determine_image_type metadata doc_type = Ok image_type
    ∧ path = image_path_of output_directory fl doc_idx clean cat
               (py_str page_number) image_type
    ∧ fmt = str_upper (image_ext_of image_type).

(** What one turn of the loop does to the counters and to the writes:
    nothing, a write that failed, or a write that returned and is
    counted. *)
Inductive turn_effect (output_directory : string) (fl : flags) (doc_idx : nat)
    (document : pyval) (c0 : gmap string Z)
    (f0 : list (string * string * option exn))
    : gmap string Z → list (string * string * option exn) → Prop :=
| turn_quiet : turn_effect output_directory fl doc_idx document c0 f0 c0 f0
| turn_failed cat path fmt e :
    save_call_of output_directory fl doc_idx document cat path fmt →
    turn_effect output_directory fl doc_idx document c0 f0
      c0 (f0 ++ [(path, fmt, Some e)])
| turn_saved cat path fmt n t :
    save_call_of output_directory fl doc_idx document cat path fmt →
    cat ∈ categories →
    c0 !! cat = Some n →
    c0 !! "total" = Some t →
    turn_effect output_directory fl doc_idx document c0 f0
      (<["total" := t + 1]> (<[cat := n + 1]> c0)) (f0 ++ [(path, fmt, None)]).

End FurtherVocabulary.

(** ** Further concrete values *)

(** The counters of the scenario: one page image. *)
Definition scenario_counts : gmap string Z :=
  list_to_map
    [("chart", 0); ("table", 0); ("infographic", 0);
     ("page_image", 1); ("image", 0); ("total", 1)].

(** Every save flag off. *)
Definition no_flags : flags :=
  {| save_charts := false; save_tables := false; save_infographics := false;
     save_page_images := false; save_raw_images := false;
     count_images := true; organize_by_type := true |}.

(** The defaults, without a directory per category. *)
Definition flat_flags : flags :=
  {| save_charts := true; save_tables := true; save_infographics := true;
     save_page_images := false; save_raw_images := false;
     count_images := true; organize_by_type := false |}.

(** A chart with content, whose source is not named. *)
Definition unnamed_chart_record : pyval :=
  mk_dict
    [("metadata",
      mk_dict
        [("content", PStr png_b64);
         ("content_metadata", mk_dict [("subtype", PStr "chart")])])].

(** A complete PNG file of one grey pixel (67 bytes), in base64. *)
Definition png_1x1_b64 : string :=
  "iVBORw0KGgoAAAANSUhEUgAAAAEAAAABCAAAAAA6fptVAAAACklEQVR42mNgAAAAAgAB5Sfe/AAAAABJRU5ErkJggg==".

(** The bytes of that file. *)
Definition png_1x1 : list Byte.byte :=
  Eval vm_compute in
    match toy_b64decode png_1x1_b64 with Ok data => data | Raise _ => [] end.


(** A record whose "source_id" is a number. *)
Definition numbered_record : pyval :=
  mk_dict
    [("metadata",
      mk_dict
        [("content", PStr png_b64);
         ("source_metadata", mk_dict [("source_id", PInt 5)])])].

(** ** Sanity checks of the embedding *)

Example basename_nested : os_path_basename "a/b/report.pdf" = "report.pdf".
Proof. reflexivity. Qed.

Example join_relative : os_path_join "out" "chart" = "out/chart".
Proof. reflexivity. Qed.

Example join_absolute : os_path_join "out" "/tmp/x" = "/tmp/x".
Proof. reflexivity. Qed.

Example lower_mixed `{RT : Runtime} : str_lower "JPeG" = "jpeg".
Proof. reflexivity. Qed.

Example png_decodes : toy_b64decode png_b64 = Ok png_signature.
Proof. vm_compute. reflexivity. Qed.

Example png_1x1_decodes : toy_b64decode png_1x1_b64 = Ok png_1x1.
Proof. vm_compute. reflexivity. Qed.

Example jpeg_decodes : toy_b64decode jpeg_b64 = Ok [Byte.xff; Byte.xd8; Byte.xff; Byte.xe0].
Proof. vm_compute. reflexivity. Qed.

Example bad_padding : toy_b64decode "abc" = Raise Base64Error.
Proof. vm_compute. reflexivity. Qed.

Example sanitise_keeps_dot : get_valid_filename_model "my report.pdf" = "my_report.pdf".
Proof. reflexivity. Qed.

(** The sanitiser of the concrete runtime is idempotent, as the
    specification asks of the routine it stands for. *)
Lemma get_valid_filename_model_idempotent name :
  get_valid_filename_model (get_valid_filename_model name)
  = get_valid_filename_model name.
Proof.
  induction name as [|c r IH]; [done|]. simpl.
  destruct (bool_decide (c = " "%char)) eqn:Hspace; simpl.
  - by rewrite IH.
  - destruct (safe_char c) eqn:Hsafe; [|done]. simpl.
    by rewrite Hspace, Hsafe, IH.
Qed.

(** * Properties of the exporter *)

Section Facts.
Context `{RT : Runtime}.

Lemma pair_eta_fst {A B} (p : A * B) (a : A) : p.1 = a → p = (a, p.2).
Proof. destruct p. simpl. by intros ->. Qed.

(** ** Rules for triples *)

Lemma hoare_conseq {A} (P P' : gmap string Z → Prop) (m : M A)
    (Q Q' : result A → gmap string Z → Prop) :
  (∀ c, P' c → P c) → (∀ r c, Q r c → Q' r c) → hoare P m Q → hoare P' m Q'.
Proof. intros HP HQ Hm s H. apply HQ, Hm, HP, H. Qed.

Lemma hoare_ret {A} (a : A) (P : gmap string Z → Prop) Q :
  (∀ c, P c → Q (Ok a) c) → hoare P (mret a) Q.
Proof. intros HQ s H. by apply HQ. Qed.

Lemma hoare_lift {A} (r : result A) (P : gmap string Z → Prop) Q :
  (∀ c, P c → Q r c) → hoare P (lift r) Q.
Proof. intros HQ s H. by apply HQ. Qed.

Lemma hoare_bind {A B} (m : M A) (f : A → M B) P (R : A → gmap string Z → Prop) Q :
  hoare P m (λ r c, match r with Ok a => R a c | Raise e => Q (Raise e) c end) →
  (∀ a, hoare (R a) (f a) Q) →
  hoare P (m ≫= f) Q.
Proof.
  intros Hm Hf s H. specialize (Hm s H).
  unfold mbind, M_bind. destruct (m s) as [[a|e] s1]; simpl in *.
  - by apply Hf.
  - done.
Qed.

(** The usual case: the first computation is a pure step, whose value the
    rest may use. *)
Lemma hoare_bind_lift {A B} (r : result A) (f : A → M B) P Q :
  (∀ e, r = Raise e → ∀ c, P c → Q (Raise e) c) →
  (∀ a, r = Ok a → hoare P (f a) Q) →
  hoare P (lift r ≫= f) Q.
Proof.
  intros He Ha s H. unfold mbind, M_bind, lift.
  destruct r as [a|e]; simpl.
  - by apply Ha.
  - by apply He.
Qed.

Lemma hoare_try {A} (m : M A) (h : exn → M A) P (R : exn → gmap string Z → Prop) Q :
  hoare P m (λ r c, match r with Ok a => Q (Ok a) c | Raise e => R e c end) →
  (∀ e, hoare (R e) (h e) Q) →
  hoare P (try_catch m h) Q.
Proof.
  intros Hm Hh s H. specialize (Hm s H).
  unfold try_catch. destruct (m s) as [[a|e] s1]; simpl in *.
  - done.
  - by apply Hh.
Qed.

Lemma hoare_log lvl msg (P : gmap string Z → Prop) Q :
  (∀ c, P c → Q (Ok ()) c) → hoare P (log lvl msg) Q.
Proof. intros HQ s H. by apply HQ. Qed.

Lemma hoare_makedirs path (P : gmap string Z → Prop) Q :
  (∀ r c, P c → Q r c) → hoare P (makedirs path) Q.
Proof.
  intros HQ s H. unfold makedirs.
  destruct (os_makedirs path (st_world s)) as [[e|] w]; by apply HQ.
Qed.

Lemma hoare_save img path fmt (P : gmap string Z → Prop) Q :
  (∀ r c, P c → Q r c) → hoare P (save img path fmt) Q.
Proof.
  intros HQ s H. unfold save.
  destruct (image_save img path fmt (st_world s)) as [[e|] w]; by apply HQ.
Qed.

(** ** Computations that maintain a property of the counters *)

Section Keeps.
Variable I : gmap string Z → Prop.

Lemma keeps_ret {A} (a : A) : keeps I (mret a).
Proof. by apply hoare_ret. Qed.

Lemma keeps_lift {A} (r : result A) : keeps I (lift r).
Proof. by apply hoare_lift. Qed.

Lemma keeps_bind {A B} (m : M A) (f : A → M B) :
  keeps I m → (∀ a, keeps I (f a)) → keeps I (m ≫= f).
Proof.
  intros Hm Hf. apply hoare_bind with (R := λ _, I); [|done].
  eapply hoare_conseq; [| |exact Hm]; [done|]. by intros [].
Qed.

Lemma keeps_bind_lift {A B} (r : result A) (f : A → M B) :
  (∀ a, r = Ok a → keeps I (f a)) → keeps I (lift r ≫= f).
Proof. intros Hf. by apply hoare_bind_lift. Qed.

Lemma keeps_try {A} (m : M A) (h : exn → M A) :
  keeps I m → (∀ e, keeps I (h e)) → keeps I (try_catch m h).
Proof.
  intros Hm Hh. apply hoare_try with (R := λ _, I); [|done].
  eapply hoare_conseq; [| |exact Hm]; [done|]. by intros [].
Qed.

Lemma keeps_log lvl msg : keeps I (log lvl msg).
Proof. by apply hoare_log. Qed.

Lemma keeps_makedirs path : keeps I (makedirs path).
Proof. by apply hoare_makedirs. Qed.

Lemma keeps_save img path fmt : keeps I (save img path fmt).
Proof. by apply hoare_save. Qed.

Lemma keeps_get_counts : keeps I get_counts.
Proof. by intros s H. Qed.

Lemma keeps_counts_getitem k : keeps I (counts_getitem k).
Proof. intros s H. unfold counts_getitem. by destruct (image_counts s !! k). Qed.

Lemma keeps_log_items items : keeps I (log_items items).
Proof.
  induction items as [|[img_type count] rest IH]; simpl.
  - apply keeps_ret.
  - apply keeps_bind; [|done]. case_match; [apply keeps_log|apply keeps_ret].
Qed.

Lemma keeps_log_summary output_directory fl : keeps I (log_summary output_directory fl).
Proof.
  unfold log_summary. apply keeps_bind.
  - destruct (count_images fl); [|apply keeps_ret].
    apply keeps_bind; [apply keeps_counts_getitem|intros; apply keeps_ret].
  - intros [].
    + apply keeps_bind; [apply keeps_counts_getitem|intros total].
      apply keeps_bind; [apply keeps_log|intros _].
      apply keeps_bind; [apply keeps_get_counts|intros c].
      apply keeps_log_items.
    + destruct (count_images fl); [apply keeps_log|apply keeps_ret].
Qed.

End Keeps.

(** ** The counters *)

Lemma total_is_sum_initial : total_is_sum initial_counts.
Proof. exists 0, 0, 0, 0, 0. by repeat split. Qed.

Lemma category_cases (cat : string) :
  cat ∈ categories →
  cat = "chart" ∨ cat = "table" ∨ cat = "infographic" ∨ cat = "page_image" ∨ cat = "image".
Proof. unfold categories. rewrite !elem_of_cons, elem_of_nil. tauto. Qed.

Lemma category_not_total cat : cat ∈ categories → cat ≠ "total".
Proof. intros H%category_cases Heq. subst cat. by repeat destruct H as [H|H]. Qed.

Lemma total_is_sum_lookup c cat :
  total_is_sum c → cat ∈ categories → ∃ n t, c !! cat = Some n ∧ c !! "total" = Some t.
Proof.
  intros (ch & tb & ig & pg & im & H1 & H2 & H3 & H4 & H5 & H6) Hcat.
  apply category_cases in Hcat.
  destruct Hcat as [->|[->|[->|[->| ->]]]]; eauto.
Qed.

(** Counting one more image of a category keeps the total right. *)
Lemma total_is_sum_bump c cat n t :
  total_is_sum c → cat ∈ categories →
  c !! cat = Some n → c !! "total" = Some t →
  total_is_sum (<["total" := t + 1]> (<[cat := n + 1]> c)).
Proof.
  intros (ch & tb & ig & pg & im & H1 & H2 & H3 & H4 & H5 & H6) Hcat Hn Ht.
  apply category_cases in Hcat.
  destruct Hcat as [->|[->|[->|[->| ->]]]]; simplify_eq.
  - exists (ch + 1), tb, ig, pg, im. simplify_map_eq. repeat split; f_equal; lia.
  - exists ch, (tb + 1), ig, pg, im. simplify_map_eq. repeat split; f_equal; lia.
  - exists ch, tb, (ig + 1), pg, im. simplify_map_eq. repeat split; f_equal; lia.
  - exists ch, tb, ig, (pg + 1), im. simplify_map_eq. repeat split; f_equal; lia.
  - exists ch, tb, ig, pg, (im + 1). simplify_map_eq. repeat split; f_equal; lia.
Qed.

(** The two increments of lines 160-161. *)
Lemma counts_bump_ok s cat n t :
  cat ≠ "total" →
  image_counts s !! cat = Some n → image_counts s !! "total" = Some t →
  (counts_incr (PStr cat);; counts_incr (PStr "total")) s
  = (Ok (), State (st_world s) (st_trace s)
              (<["total" := t + 1]> (<[cat := n + 1]> (image_counts s)))).
Proof.
  intros Hne Hn Ht. unfold mbind, M_bind, counts_incr. rewrite Hn. simpl.
  rewrite lookup_insert_ne by done. by rewrite Ht.
Qed.

Lemma keeps_bump {A} cat (k : M A) :
  cat ∈ categories → keeps total_is_sum k →
  keeps total_is_sum (counts_incr (PStr cat);; counts_incr (PStr "total");; k).
Proof.
  intros Hcat Hk s H.
  destruct (total_is_sum_lookup _ _ H Hcat) as (n & t & Hn & Ht).
  pose proof (counts_bump_ok s cat n t (category_not_total _ Hcat) Hn Ht) as E.
  unfold mbind, M_bind in *.
  destruct (counts_incr (PStr cat) s) as [[[]|e] s1] eqn:E1; [|done].
  rewrite E. apply Hk. simpl. by apply total_is_sum_bump.
Qed.

(** ** The inclusion decision *)

Lemma py_eq_str_true v s : py_eq_str v s = true ↔ v = PStr s.
Proof.
  destruct v; simpl; try (split; [done | intros [=]]).
  rewrite bool_decide_eq_true. split; [by intros -> | by intros [=]].
Qed.

Lemma py_eq_str_false v s : py_eq_str v s = false ↔ v ≠ PStr s.
Proof. rewrite <-py_eq_str_true. by destruct (py_eq_str v s). Qed.

Lemma py_in_named_false v :
  py_in_strs v named_subtypes = false ↔ ∀ name, name ∈ named_subtypes → v ≠ PStr name.
Proof.
  unfold py_in_strs, named_subtypes. simpl.
  rewrite !orb_false_iff, !py_eq_str_false. split.
  - intros (? & ? & ? & ? & _) name. rewrite !elem_of_cons, elem_of_nil.
    intros [->|[->|[->|[->|[]]]]]; done.
  - intros H. repeat split; apply H; set_solver.
Qed.

(** Whatever passes the filter is counted under one of the five
    categories. *)
Lemma apply_filter_category fl doc_type subtype key :
  apply_filter fl doc_type subtype = (true, key) →
  ∃ cat, key = PStr cat ∧ cat ∈ categories.
Proof.
  unfold apply_filter, categories.
  repeat case_match; intros [= <-];
    repeat match goal with
    | H : _ && _ = true |- _ => apply andb_true_iff in H; destruct H
    | H : py_eq_str _ _ = true |- _ => apply py_eq_str_true in H; subst
    end;
    eexists; (split; [reflexivity | set_solver]).
Qed.


(** ** Unfolding the monad *)

Lemma bind_ok {A B} (m : M A) (f : A → M B) s a s' :
  m s = (Ok a, s') → (m ≫= f) s = f a s'.
Proof. intros H. unfold mbind, M_bind. by rewrite H. Qed.

Lemma bind_lift_ok {A B} (r : result A) (f : A → M B) s a :
  r = Ok a → (lift r ≫= f) s = f a s.
Proof. by intros ->. Qed.

Lemma try_ok {A} (m : M A) h s a s' :
  m s = (Ok a, s') → try_catch m h s = (Ok a, s').
Proof. intros H. unfold try_catch. by rewrite H. Qed.

Lemma try_raise {A} (m : M A) h s e s' :
  m s = (Raise e, s') → try_catch m h s = h e s'.
Proof. intros H. unfold try_catch. by rewrite H. Qed.

Lemma makedirs_ok path s w :
  os_makedirs path (st_world s) = (None, w) →
  makedirs path s = (Ok (), State w (st_trace s ++ [EvMakedirs path None]) (image_counts s)).
Proof. intros H. unfold makedirs. by rewrite H. Qed.

Lemma save_ok img path fmt s w :
  image_save img path fmt (st_world s) = (None, w) →
  save img path fmt s
  = (Ok (), State w (st_trace s ++ [EvSave path fmt None]) (image_counts s)).
Proof. intros H. unfold save. by rewrite H. Qed.

(** ** One turn of the loop *)

Section CallFacts.
Variable output_directory : string.
Variable fl : flags.

(** The inner [try] swallows every exception. *)
Lemma save_image_returns content subtype clean image_type image_path s :
  (save_image content subtype clean image_type image_path s).1 = Ok ().
Proof.
  unfold save_image, try_catch.
  by destruct (save_image_body _ _ _ _ s) as [[[]|e] s1].
Qed.

(** So does the outer one. *)
Lemma process_document_returns idx document s :
  (process_document output_directory fl idx document s).1 = Ok ().
Proof.
  unfold process_document, try_catch.
  by destruct (document_body _ _ _ _ s) as [[[]|e] s1].
Qed.

Lemma process_document_eq idx document s :
  process_document output_directory fl idx document s
  = (Ok (), (process_document output_directory fl idx document s).2).
Proof.
  pose proof (process_document_returns idx document s) as H.
  by destruct (process_document _ _ _ _ s) as [r s1]; simpl in *; subst.
Qed.

Lemma process_all_cons idx document rest s :
  process_all output_directory fl idx (document :: rest) s
  = process_all output_directory fl (S idx) rest
      (process_document output_directory fl idx document s).2.
Proof.
  simpl. unfold mbind, M_bind at 1. by rewrite process_document_eq.
Qed.

Lemma process_all_returns documents : ∀ idx s,
  (process_all output_directory fl idx documents s).1 = Ok ().
Proof.
  induction documents as [|document rest IH]; intros idx s; [done|].
  rewrite process_all_cons. apply IH.
Qed.

Lemma process_all_app pre : ∀ post idx s,
  process_all output_directory fl idx (pre ++ post) s
  = process_all output_directory fl (idx + length pre) post
      (process_all output_directory fl idx pre s).2.
Proof.
  induction pre as [|document pre IH]; intros post idx s.
  - simpl. by rewrite Nat.add_0_r.
  - rewrite <-app_comm_cons, !process_all_cons, IH. simpl length.
    by rewrite Nat.add_succ_r.
Qed.

(** ** The counters through one turn *)

Lemma keeps_save_image content cat clean image_type image_path :
  cat ∈ categories →
  keeps total_is_sum (save_image content (PStr cat) clean image_type image_path).
Proof.
  intros Hcat. unfold save_image, save_image_body.
  apply keeps_try; [|intros; apply keeps_log].
  apply keeps_bind; [apply keeps_lift|intros data].
  apply keeps_bind; [apply keeps_lift|intros img].
  apply keeps_bind; [apply keeps_save|intros _].
  apply keeps_bump; [done|apply keeps_log].
Qed.


Lemma keeps_build_image_path I idx clean subtype page image_type :
  keeps I (build_image_path output_directory fl idx clean subtype page image_type).
Proof.
  unfold build_image_path. destruct (organize_by_type fl); [|apply keeps_ret].
  apply keeps_bind; [apply keeps_lift|intros sub].
  apply keeps_bind; [apply keeps_makedirs|intros _]. apply keeps_ret.
Qed.

(** The body of the loop maintains whatever its save step maintains. *)
Lemma keeps_document_body I idx document :
  (∀ metadata content cat clean image_type image_path,
     py_get document "metadata" (PDict ∅) = Ok metadata →
     py_get metadata "content" PNone = Ok content →
     cat ∈ categories →
     keeps I (save_image content (PStr cat) clean image_type image_path)) →
  keeps I (document_body output_directory fl idx document).
Proof.
  intros Hsave. unfold document_body.
  apply keeps_bind_lift; intros metadata Hmeta.
  apply keeps_bind_lift; intros doc_type _.
  apply keeps_bind_lift; intros content Hcontent.
  case_match; [apply keeps_ret|].
  do 7 (apply keeps_bind_lift; intros ? _).
  destruct (apply_filter _ _ _) as [[] key] eqn:Hf; simpl; [|apply keeps_ret].
  destruct (apply_filter_category _ _ _ _ Hf) as (cat & -> & Hcat).
  apply keeps_bind_lift; intros image_type _.
  apply keeps_bind; [apply keeps_build_image_path|intros image_path].
  by eapply Hsave.
Qed.

Lemma keeps_process_document idx document :
  keeps total_is_sum (process_document output_directory fl idx document).
Proof.
  apply keeps_try; [|intros; apply keeps_log].
  apply keeps_document_body. intros. by apply keeps_save_image.
Qed.

Lemma keeps_process_all documents : ∀ idx,
  keeps total_is_sum (process_all output_directory fl idx documents).
Proof.
  induction documents as [|document rest IH]; intros idx; simpl.
  - apply keeps_ret.
  - apply keeps_bind; [apply keeps_process_document|intros _; apply IH].
Qed.

(** An exception that leaves the body was raised before anything was
    counted. *)
Lemma document_body_raise_counts idx document s e s1 :
  document_body output_directory fl idx document s = (Raise e, s1) →
  image_counts s1 = image_counts s.
Proof.
  intros Hrun.
  assert (hoare (λ c, c = image_counts s)
            (document_body output_directory fl idx document)
            (λ r c, match r with Ok _ => True | Raise _ => c = image_counts s end))
    as Hh.
  { unfold document_body.
    do 3 (apply hoare_bind_lift; [done|intros ? _]).
    case_match; [by apply hoare_ret|].
    do 7 (apply hoare_bind_lift; [done|intros ? _]).
    destruct (apply_filter _ _ _) as [[] key]; simpl; [|by apply hoare_ret].
    apply hoare_bind_lift; [done|intros image_type _].
    eapply hoare_bind with (R := λ _ _, True).
    - unfold build_image_path. destruct (organize_by_type fl); [|by apply hoare_ret].
      apply hoare_bind_lift; [done|intros sub _].
      eapply hoare_bind with (R := λ _ _, True); [|intros; by apply hoare_ret].
      apply hoare_makedirs. by intros [e'|].
    - intros image_path s2 _.
      by rewrite (save_image_returns _ _ _ _ _ s2). }
  specialize (Hh s eq_refl). by rewrite Hrun in Hh.
Qed.

(** ** The summary *)

Lemma log_items_returns items : ∀ s, (log_items items s).1 = Ok ().
Proof.
  induction items as [|[img_type count] rest IH]; intros s; [done|].
  simpl. unfold mbind, M_bind.
  destruct (negb _ && _); simpl; apply IH.
Qed.

Lemma log_summary_returns s t :
  image_counts s !! "total" = Some t →
  (log_summary output_directory fl s).1 = Ok ().
Proof.
  intros Ht. unfold log_summary, mbind, M_bind, counts_getitem.
  destruct (count_images fl); simpl; [|done].
  rewrite Ht. simpl. destruct (0 <? t); simpl; [|done].
  rewrite Ht. simpl. apply log_items_returns.
Qed.


(** ** The write of an image typed "jpeg" *)

(** Whatever the image library answers, the write of an image whose type
    is "jpeg" is asked for under the format name "JPG"; by
    [build_image_path_index] below its path ends in ".jpeg". *)
Lemma jpeg_save_call content subtype clean image_path data img s :
  py_b64decode content = Ok data →
  image_open data = Ok img →
  ∃ r, EvSave image_path "JPG" r
       ∈ st_trace (save_image content subtype clean "jpeg" image_path s).2.
Proof.
  intros Hdec Hopen. unfold save_image, try_catch, save_image_body.
  rewrite (bind_lift_ok _ _ _ _ Hdec), (bind_lift_ok _ _ _ _ Hopen).
  change (str_upper (image_ext_of "jpeg")) with "JPG".
  unfold mbind, M_bind, save, counts_incr, log, emit.
  destruct (image_save img image_path "JPG" (st_world s)) as [r w].
  exists r. repeat case_match; simplify_eq; cbn [snd st_trace]; set_solver.
Qed.

(** ** A record whose fields can be read *)

Lemma document_body_fields idx document metadata doc_type content clean
    subtype page_number s :
  has_fields idx document metadata doc_type content clean subtype page_number →
  py_truthy content = true →
  document_body output_directory fl idx document s
  = (if negb (apply_filter fl doc_type subtype).1 then mret ()
     else
       image_type ← lift (determine_image_type metadata doc_type);
       image_path ← build_image_path output_directory fl idx clean
                       (apply_filter fl doc_type subtype).2 page_number image_type;
       save_image content (apply_filter fl doc_type subtype).2 clean
         image_type image_path) s.
Proof.
  intros (sm & sid & cm & sp & H1 & H2 & H3 & H4 & H5 & H6 & H7 & H8 & H9 & H10) Ht.
  unfold document_body.
  rewrite (bind_lift_ok _ _ _ _ H1), (bind_lift_ok _ _ _ _ H2),
    (bind_lift_ok _ _ _ _ H3), Ht. cbn [negb].
  rewrite (bind_lift_ok _ _ _ _ H4), (bind_lift_ok _ _ _ _ H5),
    (bind_lift_ok _ _ _ _ H6), (bind_lift_ok _ _ _ _ H7),
    (bind_lift_ok _ _ _ _ H8), (bind_lift_ok _ _ _ _ H9),
    (bind_lift_ok _ _ _ _ H10).
  by destruct (apply_filter fl doc_type subtype).
Qed.

(** What the code builds as destination is the path of the naming scheme. *)
Lemma build_image_path_ok idx clean cat page_number image_type s w :
  (if organize_by_type fl
   then os_makedirs (os_path_join output_directory cat) (st_world s)
   else (None, st_world s)) = (None, w) →
  build_image_path output_directory fl idx clean (PStr cat) page_number image_type s
  = (Ok (image_path_of output_directory fl idx clean cat (py_str page_number) image_type),
     State w
       (st_trace s ++ (if organize_by_type fl
                       then [EvMakedirs (os_path_join output_directory cat) None]
                       else []))
       (image_counts s)).
Proof.
  unfold build_image_path, image_path_of. destruct (organize_by_type fl); intros Hw.
  - rewrite (bind_lift_ok _ _ _ (cat) eq_refl).
    by rewrite (bind_ok _ _ _ _ _ (makedirs_ok _ _ _ Hw)).
  - injection Hw as <-. destruct s. simpl. by rewrite app_nil_r.
Qed.

(** The inner [try] when nothing fails. *)
Lemma save_image_ok content cat clean image_type image_path data img s w n t :
  cat ≠ "total" →
  py_b64decode content = Ok data →
  image_open data = Ok img →
  image_save img image_path (str_upper (image_ext_of image_type)) (st_world s) = (None, w) →
  image_counts s !! cat = Some n →
  image_counts s !! "total" = Some t →
  save_image content (PStr cat) clean image_type image_path s
  = (Ok (),
     State w
       (st_trace s ++ [EvSave image_path (str_upper (image_ext_of image_type)) None;
                       EvLog DEBUG (MsgSavedImage cat image_path)])
       (<["total" := t + 1]> (<[cat := n + 1]> (image_counts s)))).
Proof.
  intros Hne Hdec Hopen Hsave Hn Ht. unfold save_image.
  erewrite try_ok; [reflexivity|]. unfold save_image_body.
  rewrite (bind_lift_ok _ _ _ _ Hdec), (bind_lift_ok _ _ _ _ Hopen).
  rewrite (bind_ok _ _ _ _ _ (save_ok _ _ _ _ _ Hsave)).
  change (counts_incr (PStr cat);; counts_incr (PStr "total");; ?k)
    with (counts_incr (PStr cat) ≫= λ _, counts_incr (PStr "total") ≫= λ _, k).
  unfold mbind, M_bind, counts_incr. simpl. rewrite Hn. simpl.
  rewrite lookup_insert_ne by done. rewrite Ht. simpl.
  unfold log, emit. simpl. by rewrite <-app_assoc.
Qed.

(** One turn of the loop when nothing fails: the directory of the category
    is asked for (if images are organised by type), the image is written
    at the path of the naming scheme and counted. *)
Lemma process_document_saves idx document metadata doc_type content clean
    subtype page_number cat image_type data img s w1 w2 n t :
  has_fields idx document metadata doc_type content clean subtype page_number →
  py_truthy content = true →
  apply_filter fl doc_type subtype = (true, PStr cat) →
  determine_image_type metadata doc_type = Ok image_type →
  (if organize_by_type fl
   then os_makedirs (os_path_join output_directory cat) (st_world s)
   else (None, st_world s)) = (None, w1) →
  py_b64decode content = Ok data →
  image_open data = Ok img →
  image_save img
    (image_path_of output_directory fl idx clean cat (py_str page_number) image_type)
    (str_upper (image_ext_of image_type)) w1 = (None, w2) →
  image_counts s !! cat = Some n →
  image_counts s !! "total" = Some t →
  process_document output_directory fl idx document s
  = (Ok (),
     State w2
       (st_trace s
          ++ (if organize_by_type fl
              then [EvMakedirs (os_path_join output_directory cat) None] else [])
          ++ [EvSave
                (image_path_of output_directory fl idx clean cat (py_str page_number)
                   image_type)
                (str_upper (image_ext_of image_type)) None;
              EvLog DEBUG
                (MsgSavedImage cat
                   (image_path_of output_directory fl idx clean cat
                      (py_str page_number) image_type))])
       (<["total" := t + 1]> (<[cat := n + 1]> (image_counts s)))).
Proof.
  intros Hfields Htruthy Hfilter Htype Hdir Hdec Hopen Hsave Hn Ht.
  destruct (apply_filter_category _ _ _ _ Hfilter) as (cat' & [= <-] & Hcat).
  unfold process_document. erewrite try_ok; [reflexivity|].
  rewrite (document_body_fields _ _ _ _ _ _ _ _ _ Hfields Htruthy), Hfilter.
  cbn [negb fst snd].
  rewrite (bind_lift_ok _ _ _ _ Htype).
  rewrite (bind_ok _ _ _ _ _ (build_image_path_ok _ _ _ _ _ _ _ Hdir)).
  erewrite save_image_ok; eauto using category_not_total.
  simpl. by rewrite <-app_assoc.
Qed.

(** A record that the filter excludes leaves no trace at all. *)
Lemma process_document_excluded idx document metadata doc_type content clean
    subtype page_number s :
  has_fields idx document metadata doc_type content clean subtype page_number →
  py_truthy content = true →
  (apply_filter fl doc_type subtype).1 = false →
  process_document output_directory fl idx document s = (Ok (), s).
Proof.
  intros Hfields Htruthy Hfilter.
  unfold process_document. erewrite try_ok; [reflexivity|].
  by rewrite (document_body_fields _ _ _ _ _ _ _ _ _ Hfields Htruthy), Hfilter.
Qed.

(** ** The index in the file name *)

Lemma str_app_assoc (a b c : string) : (a ++ b) ++ c = a ++ (b ++ c).
Proof.
  induction a as [|x a IH]; [done|].
  change (String x ((a ++ b) ++ c) = String x (a ++ (b ++ c))). by rewrite IH.
Qed.

Lemma os_path_join_suffix a x suffix :
  ∃ stem, os_path_join a (x ++ suffix) = stem ++ suffix.
Proof.
  unfold os_path_join. destruct (starts_with_slash _); [by exists x|].
  destruct (_ || _).
  - exists (a ++ x). by rewrite str_app_assoc.
  - exists (a ++ "/" ++ x). by rewrite !str_app_assoc.
Qed.

(** Whatever path the code builds ends in the index of the record and the
    image type. *)
Lemma build_image_path_index idx clean subtype page_number image_type s p s' :
  build_image_path output_directory fl idx clean subtype page_number image_type s
  = (Ok p, s') →
  ∃ stem, p = stem ++ "_" ++ str_of_nat idx ++ "." ++ image_type.
Proof.
  unfold build_image_path. destruct (organize_by_type fl).
  - destruct subtype as [| | | |sub| |];
      unfold mbind at 1, M_bind at 1, lift at 1; cbn [expect_str]; try done.
    unfold mbind, M_bind, makedirs.
    destruct (os_makedirs _ _) as [[e|] w]; [done|].
    intros [= <- _].
    rewrite <-(str_app_assoc clean "_p"), <-(str_app_assoc _ (py_str page_number)).
    apply os_path_join_suffix.
  - intros [= <- _].
    rewrite <-(str_app_assoc clean "_"), <-(str_app_assoc _ (py_str subtype)),
      <-(str_app_assoc _ "_p"), <-(str_app_assoc _ (py_str page_number)).
    apply os_path_join_suffix.
Qed.

End CallFacts.
End Facts.

(** ** The whole pass *)

Section PassFacts.
Context `{RT : Runtime}.
Variable output_directory : string.
Variable fl : flags.

Lemma hoare_bind_keeps {A B} I (m : M A) (f : A → M B) Q :
  keeps I m → (∀ e c, I c → Q (Raise e) c) → (∀ a, hoare I (f a) Q) →
  hoare I (m ≫= f) Q.
Proof.
  intros Hm He Hf. apply hoare_bind with (R := λ _, I); [|done].
  eapply hoare_conseq; [| |exact Hm]; [done|]. intros [a|e] c; simpl; auto.
Qed.

(** From line 90 to the end of [save_images_to_disk]: the mapping that is
    returned is the dict of the state, and it is consistent. *)
Lemma exporter_pass_hoare response_data :
  hoare total_is_sum
    (makedirs output_directory;;
     documents ← lift (py_iter response_data);
     process_all output_directory fl 0 documents;;
     log_summary output_directory fl;;
     get_counts)
    (λ r c, match r with Ok v => v = c ∧ total_is_sum c | Raise _ => True end).
Proof.
  apply hoare_bind_keeps; [apply keeps_makedirs|done|intros _].
  apply hoare_bind_keeps; [apply keeps_lift|done|intros documents].
  apply hoare_bind_keeps; [apply keeps_process_all|done|intros _].
  apply hoare_bind_keeps; [apply keeps_log_summary|done|intros _].
  by intros s H.
Qed.

Lemma process_all_total_is_sum documents idx s :
  total_is_sum (image_counts s) →
  total_is_sum (image_counts (process_all output_directory fl idx documents s).2).
Proof. apply keeps_process_all. Qed.

(** On a list of records, once the output directory exists, the call
    runs to its [return]. *)
Lemma save_images_to_disk_returns records s w :
  os_makedirs output_directory (st_world s) = (None, w) →
  ∃ c s', save_images_to_disk output_directory fl (PList records) s = (Ok c, s').
Proof.
  intros Hdir. unfold save_images_to_disk.
  destruct records as [|document rest]; [by eexists _, _|].
  cbn [py_truthy negb]. rewrite bool_decide_eq_false_2 by done. cbn [negb].
  unfold mbind at 1, M_bind at 1, set_counts.
  set (s1 := State (st_world s) (st_trace s) initial_counts).
  rewrite (bind_ok _ _ _ _ _ (makedirs_ok output_directory s1 w Hdir)).
  rewrite (bind_lift_ok _ _ _ (document :: rest) eq_refl).
  set (s2 := State w _ _).
  pose proof (process_all_returns output_directory fl (document :: rest) 0 s2) as Hok.
  pose proof (process_all_total_is_sum (document :: rest) 0 s2 total_is_sum_initial) as Hinv.
  destruct (process_all _ _ 0 (document :: rest) s2) as [r s3] eqn:Hloop.
  simpl in Hok, Hinv. subst r.
  rewrite (bind_ok _ _ _ _ _ Hloop).
  destruct Hinv as (ch & tb & ig & pg & im & _ & _ & _ & _ & _ & Htotal).
  pose proof (log_summary_returns output_directory fl s3 _ Htotal) as Hsum.
  destruct (log_summary output_directory fl s3) as [r s4] eqn:Hlog.
  simpl in Hsum. subst r.
  rewrite (bind_ok _ _ _ _ _ Hlog). by eexists _, _.
Qed.

(** An exception that leaves the body of the inner [try] was raised
    before anything was counted. *)
Lemma save_image_body_raise_counts content cat image_type image_path s0 e s1 :
  cat ∈ categories →
  total_is_sum (image_counts s0) →
  save_image_body content (PStr cat) image_type image_path s0 = (Raise e, s1) →
  image_counts s1 = image_counts s0.
Proof.
  intros Hcat Hinv. unfold save_image_body.
  destruct (py_b64decode content) as [data|e1];
    unfold mbind at 1, M_bind at 1, lift at 1; cbv beta iota;
    [|by intros [= _ <-]].
  destruct (image_open data) as [img|e1];
    unfold mbind at 1, M_bind at 1, lift at 1; cbv beta iota;
    [|by intros [= _ <-]].
  unfold mbind at 1, M_bind at 1, save.
  destruct (image_save _ _ _ _) as [[e1|] w1]; [by intros [= _ <-]|].
  set (s2 := State w1 _ _).
  destruct (total_is_sum_lookup _ _ Hinv Hcat) as (n & t & Hn & Ht).
  pose proof (counts_bump_ok s2 cat n t (category_not_total _ Hcat) Hn Ht) as E.
  unfold mbind, M_bind in *.
  destruct (counts_incr (PStr cat) s2) as [[[]|e1] s3]; [|done].
  by rewrite E.
Qed.

(** The loop of lines 233-238 appends the flattening to what it already
    has. *)
Lemma flatten_results_spec results : ∀ all_documents,
  flatten_results results all_documents = (all_documents ++ flatten_spec results)%list.
Proof.
  induction results as [|doc_results rest IH]; intros acc.
  - simpl. by rewrite app_nil_r.
  - simpl. rewrite IH. unfold flatten_spec. simpl.
    by destruct doc_results; rewrite <-app_assoc.
Qed.

(** ** The filter and the rule of the specification *)

Lemma flag_for_named :
  flag_for fl "chart" = save_charts fl ∧ flag_for fl "table" = save_tables fl
  ∧ flag_for fl "infographic" = save_infographics fl
  ∧ flag_for fl "page_image" = save_page_images fl.
Proof. by repeat split. Qed.

Lemma apply_filter_named doc_type subtype :
  named_and_enabled fl subtype → apply_filter fl doc_type subtype = (true, subtype).
Proof.
  intros (name & Hname & -> & Hflag). unfold named_subtypes in Hname.
  rewrite !elem_of_cons, elem_of_nil in Hname.
  unfold apply_filter.
  destruct flag_for_named as (Hc & Ht & Hi & Hp).
  destruct Hname as [->|[->|[->|[->|[]]]]]; cbn [py_eq_str];
    repeat (rewrite bool_decide_eq_false_2 by done; cbn [andb]);
    rewrite bool_decide_eq_true_2 by done; cbn [andb];
    [rewrite <-Hc|rewrite <-Ht|rewrite <-Hi|rewrite <-Hp]; by rewrite Hflag.
Qed.

Lemma apply_filter_raw doc_type subtype :
  raw_and_enabled fl doc_type subtype →
  apply_filter fl doc_type subtype = (true, PStr "image").
Proof.
  intros (-> & Hnone & Hflag). unfold apply_filter.
  pose proof (proj2 (py_in_named_false subtype) Hnone) as Hin.
  rewrite !(proj2 (py_eq_str_false subtype _)) by (apply Hnone; set_solver).
  cbn [andb]. rewrite Hin, Hflag. by cbn.
Qed.

Lemma apply_filter_rule doc_type subtype :
  (apply_filter fl doc_type subtype).1 = true ↔ inclusion_rule fl doc_type subtype.
Proof.
  destruct flag_for_named as (Hc & Ht & Hi & Hp). split.
  - unfold apply_filter, inclusion_rule.
    repeat case_match; cbn [fst]; intros Hsave; try discriminate;
      repeat match goal with
      | H : _ && _ = true |- _ => apply andb_true_iff in H; destruct H
      | H : py_eq_str _ _ = true |- _ => apply py_eq_str_true in H; subst
      | H : negb _ = true |- _ => apply negb_true_iff in H
      end.
    + left. exists "chart". split; [set_solver|]. split; [done|]. by rewrite Hc.
    + left. exists "table". split; [set_solver|]. split; [done|]. by rewrite Ht.
    + left. exists "infographic". split; [set_solver|]. split; [done|]. by rewrite Hi.
    + left. exists "page_image". split; [set_solver|]. split; [done|]. by rewrite Hp.
    + right. split; [done|]. split; [by apply py_in_named_false|done].
  - intros [H|H].
    + by rewrite (apply_filter_named _ _ H).
    + by rewrite (apply_filter_raw _ _ H).
Qed.

(** ** The summary only logs *)

Lemma files_written_app t1 t2 :
  files_written (t1 ++ t2) = (files_written t1 ++ files_written t2)%list.
Proof. apply omap_app. Qed.

Lemma dirs_requested_app t1 t2 :
  dirs_requested (t1 ++ t2) = (dirs_requested t1 ++ dirs_requested t2)%list.
Proof. apply omap_app. Qed.

Lemma only_logs_silent lines :
  only_logs lines → files_written lines = [] ∧ dirs_requested lines = [].
Proof.
  induction 1 as [|ev lines (lvl & msg & ->) _ [IH1 IH2]]; [done|].
  by cbn.
Qed.

Lemma log_items_effect items : ∀ s,
  ∃ lines, only_logs lines
    ∧ log_items items s
      = (Ok (), State (st_world s) (st_trace s ++ lines) (image_counts s)).
Proof.
  induction items as [|[img_type count] rest IH]; intros s.
  - exists []. split; [constructor|]. destruct s. cbn. by rewrite app_nil_r.
  - simpl. unfold mbind, M_bind. destruct (negb _ && _); simpl.
    + destruct (IH (State (st_world s)
                      (st_trace s ++ [EvLog INFO (MsgSavedByType img_type count)])
                      (image_counts s)))
        as (lines & Hl & ->).
      exists (EvLog INFO (MsgSavedByType img_type count) :: lines).
      split; [constructor; eauto|]. cbn. by rewrite <-app_assoc.
    + apply IH.
Qed.

Lemma log_summary_effect s t :
  image_counts s !! "total" = Some t →
  ∃ lines, only_logs lines
    ∧ log_summary output_directory fl s
      = (Ok (), State (st_world s) (st_trace s ++ lines) (image_counts s)).
Proof.
  intros Ht. unfold log_summary, mbind, M_bind, counts_getitem.
  destruct (count_images fl); simpl.
  - rewrite Ht. simpl. destruct (0 <? t); simpl.
    + rewrite Ht. simpl.
      destruct (log_items_effect (counts_items (image_counts s))
                  (State (st_world s)
                     (st_trace s ++ [EvLog INFO (MsgSavedTotal t output_directory)])
                     (image_counts s)))
        as (lines & Hl & ->).
      exists (EvLog INFO (MsgSavedTotal t output_directory) :: lines).
      split; [constructor; eauto|]. cbn. by rewrite <-app_assoc.
    + exists [EvLog INFO MsgNoImagesSaved]. split; [|done].
      constructor; [eauto|constructor].
  - exists []. split; [constructor|]. destruct s. cbn. by rewrite app_nil_r.
Qed.

Lemma scenario_has_fields encoded name :
  get_valid_filename "report.pdf" = Ok name →
  has_fields 0 (scenario_record encoded)
    (mk_dict
       [("content", PStr encoded);
        ("source_metadata", mk_dict [("source_id", PStr "a/b/report.pdf")]);
        ("content_metadata",
         mk_dict [("subtype", PStr "page_image"); ("page_number", PInt 2)]);
        ("image_metadata", mk_dict [("image_type", PStr "png")])])
    (PStr "image") (PStr encoded) name (PStr "page_image") (PInt 2).
Proof.
  intros Hname.
  exists (mk_dict [("source_id", PStr "a/b/report.pdf")]), (PStr "a/b/report.pdf"),
    (mk_dict [("subtype", PStr "page_image"); ("page_number", PInt 2)]),
    "a/b/report.pdf".
  by repeat split.
Qed.

End PassFacts.

(** * The properties of the specification *)

Section Properties.
Context `{RT : Runtime}.
Variable output_directory : string.
Variable fl : flags.

(** C1. Whenever [save_images_to_disk] returns a mapping that is not
    empty, the value under "total" is the sum of the values under "chart",
    "table", "infographic", "page_image" and "image". *)
Theorem C1_total_is_sum_of_categories response_data s c s' :
  save_images_to_disk output_directory fl response_data s = (Ok c, s') →
  c ≠ ∅ →
  total_is_sum c.
Proof.
  unfold save_images_to_disk. destruct (py_truthy response_data); cbn [negb].
  - intros Hrun _.
    pose proof (exporter_pass_hoare output_directory fl response_data
                  (State (st_world s) (st_trace s) initial_counts)
                  total_is_sum_initial) as Hh.
    unfold mbind at 1, M_bind at 1, set_counts in Hrun.
    rewrite Hrun in Hh. simpl in Hh. by destruct Hh as [-> ?].
  - unfold mbind, M_bind, log, emit. by intros [= <- _].
Qed.

(** C2. A record that carries content and whose fields can be read is
    submitted to the filter, and the filter is the rule of the
    specification. The record is kept exactly when the rule holds; it is
    then handled under its own subtype if that is one of the four named
    ones, and under "image" otherwise. A record that the rule excludes
    leaves the state untouched, so that a file or a count is evidence of
    inclusion. A record that the rule includes is written at the path of
    the naming scheme and counted under its category and under the total,
    provided that the directory, the decoder and the image library
    succeed. *)
Theorem C2_inclusion_rule idx document metadata doc_type content clean
    subtype page_number s :
  has_fields idx document metadata doc_type content clean subtype page_number →
  py_truthy content = true →
  ((apply_filter fl doc_type subtype).1 = true ↔ inclusion_rule fl doc_type subtype)
  ∧ (named_and_enabled fl subtype → (apply_filter fl doc_type subtype).2 = subtype)
  ∧ (raw_and_enabled fl doc_type subtype →
       (apply_filter fl doc_type subtype).2 = PStr "image")
  ∧ (¬ inclusion_rule fl doc_type subtype →
       process_document output_directory fl idx document s = (Ok (), s))
  ∧ (files_written (st_trace (process_document output_directory fl idx document s).2)
       ≠ files_written (st_trace s)
     ∨ image_counts (process_document output_directory fl idx document s).2
       ≠ image_counts s →
     inclusion_rule fl doc_type subtype)
  ∧ (∀ cat image_type data img w1 w2 n t,
       inclusion_rule fl doc_type subtype →
       (apply_filter fl doc_type subtype).2 = PStr cat →
       determine_image_type metadata doc_type = Ok image_type →
       (if organize_by_type fl
        then os_makedirs (os_path_join output_directory cat) (st_world s)
        else (None, st_world s)) = (None, w1) →
       py_b64decode content = Ok data →
       image_open data = Ok img →
       image_save img
         (image_path_of output_directory fl idx clean cat (py_str page_number)
            image_type)
         (str_upper (image_ext_of image_type)) w1 = (None, w2) →
       image_counts s !! cat = Some n →
       image_counts s !! "total" = Some t →
       let s' := (process_document output_directory fl idx document s).2 in
       files_written (st_trace s')
       = (files_written (st_trace s)
            ++ [image_path_of output_directory fl idx clean cat (py_str page_number)
                  image_type])%list
       ∧ image_counts s' = <["total" := t + 1]> (<[cat := n + 1]> (image_counts s))).
Proof.
  intros Hfields Htruthy.
  assert (¬ inclusion_rule fl doc_type subtype →
          process_document output_directory fl idx document s = (Ok (), s)) as Hexcl.
  { intros Hno. eapply process_document_excluded; [done..|].
    destruct (apply_filter fl doc_type subtype).1 eqn:E; [|done].
    by apply apply_filter_rule in E. }
  split; [apply apply_filter_rule|].
  split; [intros H; by rewrite (apply_filter_named fl _ _ H)|].
  split; [intros H; by rewrite (apply_filter_raw fl _ _ H)|].
  split; [done|]. split.
  - intros Hchanged.
    destruct (apply_filter fl doc_type subtype).1 eqn:E;
      [by apply apply_filter_rule|].
    rewrite Hexcl in Hchanged; [by destruct Hchanged|].
    rewrite <-apply_filter_rule. by rewrite E.
  - intros cat image_type data img w1 w2 n t Hin Hcat Htype Hdir Hdec Hopen Hsave Hn Ht.
    apply apply_filter_rule in Hin.
    assert (apply_filter fl doc_type subtype = (true, PStr cat)) as Hfilter.
    { destruct (apply_filter fl doc_type subtype). simpl in *. by subst. }
    rewrite (process_document_saves output_directory fl idx document metadata
               doc_type content clean subtype page_number cat image_type data img
               s w1 w2 n t
               Hfields Htruthy Hfilter Htype Hdir Hdec Hopen Hsave Hn Ht).
    cbn [snd st_trace image_counts]. split; [|done].
    unfold files_written. rewrite !omap_app.
    destruct (organize_by_type fl); by cbn.
Qed.

(** C4, amended. Provided the output directory can be created, a call on
    a list of records returns a mapping and raises nothing. Every turn of
    the loop ends normally. A failure outside the save step is caught and
    logged with the index of the record; a failure inside the save step is
    caught and logged with the category and the sanitised source name. In
    both cases the counters are as before the record, and the loop goes on
    with the records that follow. *)
Theorem C4_failures_are_contained records s w :
  os_makedirs output_directory (st_world s) = (None, w) →
  (∃ c s', save_images_to_disk output_directory fl (PList records) s = (Ok c, s'))
  ∧ (∀ idx document s0,
       (process_document output_directory fl idx document s0).1 = Ok ())
  ∧ (∀ idx document s0 e s1,
       document_body output_directory fl idx document s0 = (Raise e, s1) →
       process_document output_directory fl idx document s0
       = (Ok (), with_event s1 (EvLog ERROR (MsgFailedProcess idx e)))
       ∧ image_counts s1 = image_counts s0)
  ∧ (∀ content cat clean image_type image_path s0 e s1,
       cat ∈ categories →
       total_is_sum (image_counts s0) →
       save_image_body content (PStr cat) image_type image_path s0 = (Raise e, s1) →
       save_image content (PStr cat) clean image_type image_path s0
       = (Ok (), with_event s1 (EvLog ERROR (MsgFailedSave cat clean e)))
       ∧ image_counts s1 = image_counts s0)
  ∧ (∀ idx pre document post s0,
       process_all output_directory fl idx (pre ++ document :: post) s0
       = process_all output_directory fl (S (idx + length pre)) post
           (process_document output_directory fl (idx + length pre) document
              (process_all output_directory fl idx pre s0).2).2).
Proof.
  intros Hdir. split; [by eapply save_images_to_disk_returns|].
  split; [apply process_document_returns|].
  split; [|split].
  - intros idx document s0 e s1 Hbody. split.
    + unfold process_document. by rewrite (try_raise _ _ _ _ _ Hbody).
    + by eapply document_body_raise_counts.
  - intros content cat clean image_type image_path s0 e s1 Hcat Hinv Hbody. split.
    + unfold save_image. by rewrite (try_raise _ _ _ _ _ Hbody).
    + by eapply save_image_body_raise_counts.
  - intros idx pre document post s0.
    by rewrite process_all_app, process_all_cons.
Qed.


(** C6, amended. The scenario of the specification: one record with
    document type "image", source "a/b/report.pdf", subtype "page_image",
    page 2, image type "png" and a payload that decodes to an image, with
    page images enabled and organised by type. The exporter asks for the
    output directory and its subdirectory "page_image", writes exactly one
    file, in that subdirectory, named after the sanitised last component
    "report.pdf" of the source followed by "_p2_0.png", and returns
    page_image = 1, total = 1 and 0 for the other categories. *)
Theorem C6_page_image_scenario encoded name data img s w0 w1 w2 :
  save_page_images fl = true →
  organize_by_type fl = true →
  encoded ≠ "" →
  b64decode encoded = Ok data →
  image_open data = Ok img →
  get_valid_filename "report.pdf" = Ok name →
  os_makedirs output_directory (st_world s) = (None, w0) →
  os_makedirs (os_path_join output_directory "page_image") w0 = (None, w1) →
  image_save img
    (os_path_join (os_path_join output_directory "page_image") (name ++ "_p2_0.png"))
    "PNG" w1 = (None, w2) →
  ∃ s',
    save_images_to_disk output_directory fl (PList [scenario_record encoded]) s
    = (Ok (list_to_map
             [("chart", 0); ("table", 0); ("infographic", 0);
              ("page_image", 1); ("image", 0); ("total", 1)]), s')
    ∧ st_world s' = w2
    ∧ files_written (st_trace s')
      = (files_written (st_trace s)
           ++ [os_path_join (os_path_join output_directory "page_image")
                 (name ++ "_p2_0.png")])%list
    ∧ dirs_requested (st_trace s')
      = (dirs_requested (st_trace s)
           ++ [output_directory; os_path_join output_directory "page_image"])%list.
Proof.
  intros Hpages Horg Hne Hdec Hopen Hname Hdir0 Hdir1 Hsave.
  unfold save_images_to_disk.
  cbn [py_truthy negb]. rewrite bool_decide_eq_false_2 by done. cbn [negb].
  unfold mbind at 1, M_bind at 1, set_counts.
  set (s1 := State (st_world s) (st_trace s) initial_counts).
  rewrite (bind_ok _ _ _ _ _ (makedirs_ok output_directory s1 w0 Hdir0)).
  rewrite (bind_lift_ok _ _ _ [scenario_record encoded] eq_refl).
  set (s2 := State w0 _ _).
  assert (apply_filter fl (PStr "image") (PStr "page_image") = (true, PStr "page_image"))
    as Hfilter.
  { apply apply_filter_named. exists "page_image".
    split; [set_solver|]. split; [done|].
    destruct (flag_for_named fl) as (_ & _ & _ & ->). done. }
  assert (image_path_of output_directory fl 0 name "page_image" (py_str (PInt 2)) "png"
          = os_path_join (os_path_join output_directory "page_image")
              (name ++ "_p2_0.png")) as Hpath.
  { unfold image_path_of. by rewrite Horg. }
  pose proof (process_document_saves output_directory fl 0 (scenario_record encoded)
                _ (PStr "image") (PStr encoded) name (PStr "page_image") (PInt 2)
                "page_image" "png" data img s2 w1 w2 0 0
                (scenario_has_fields encoded name Hname)) as Hturn.
  rewrite Hpath, Horg in Hturn.
  specialize (Hturn (proj2 (negb_true_iff _) (bool_decide_eq_false_2 _ Hne))
                Hfilter eq_refl Hdir1 Hdec Hopen Hsave eq_refl eq_refl).
  set (s3 := State w2 _ _) in Hturn.
  assert (process_all output_directory fl 0 [scenario_record encoded] s2 = (Ok (), s3))
    as Hloop by (by rewrite process_all_cons, Hturn).
  rewrite (bind_ok _ _ _ _ _ Hloop).
  destruct (log_summary_effect output_directory fl s3 1 eq_refl)
    as (lines & Hlines & Hsummary).
  rewrite (bind_ok _ _ _ _ _ Hsummary).
  destruct (only_logs_silent _ Hlines) as [Hfiles Hdirs].
  eexists. split; [reflexivity|]. split; [done|].
  subst s3 s2 s1. cbn [st_trace].
  rewrite !files_written_app, !dirs_requested_app, Hfiles, Hdirs.
  cbn. by rewrite !app_nil_r, <-!app_assoc.
Qed.

(** C8. With an envelope whose "data" is absent or empty, the response
    adapter logs a warning and returns the empty mapping; with an empty
    list of records the exporter does the same. In both cases the state
    differs by that one log line only: no directory is asked for and no
    record is processed. The empty mapping is not the zeroed one. *)
Theorem C8_no_input_returns_empty_mapping (response : gmap string pyval) s :
  response !! "data" = None
  ∨ (∃ data, response !! "data" = Some data ∧ py_truthy data = false) →
  save_images_from_response output_directory fl response s
  = (Ok ∅, with_event s (EvLog WARNING MsgNoDataInResponse))
  ∧ save_images_to_disk output_directory fl (PList []) s
    = (Ok ∅, with_event s (EvLog WARNING MsgNoResponseData))
  ∧ (∅ : gmap string Z) ≠ initial_counts.
Proof.
  intros Hdata. split; [|split].
  - unfold save_images_from_response.
    destruct Hdata as [->|(data & -> & ->)]; done.
  - done.
  - intros Heq. assert (initial_counts !! "total" = Some 0) as H by done.
    by rewrite <-Heq in H.
Qed.

(** C9. A record whose metadata holds no content (the key is absent, or
    its value is [None] or empty) is passed over: the turn of the loop ends
    normally and leaves the state as it was, so that nothing is written,
    nothing is counted and nothing is logged. *)
Theorem C9_no_content_no_effect idx d m s :
  default (PDict ∅) (d !! "metadata") = PDict m →
  py_truthy (default PNone (m !! "content")) = false →
  process_document output_directory fl idx (PDict d) s = (Ok (), s).
Proof.
  intros Hmeta Hcontent.
  unfold process_document. erewrite try_ok; [reflexivity|].
  unfold document_body.
  rewrite (bind_lift_ok _ _ _ (PDict m)) by (simpl; by rewrite Hmeta).
  erewrite bind_lift_ok by reflexivity.
  erewrite bind_lift_ok by reflexivity.
  by rewrite Hcontent.
Qed.

(** C10. In a call, after any number of records has been processed, the
    category under which a record that passes the filter is counted is one
    of the five category keys, the key is in the dict, and the two
    increments of lines 160-161 succeed. *)
Theorem C10_counted_category_is_a_key processed s0 s doc_type subtype key :
  image_counts s0 = initial_counts →
  image_counts s = image_counts (process_all output_directory fl 0 processed s0).2 →
  apply_filter fl doc_type subtype = (true, key) →
  ∃ cat n t,
    key = PStr cat ∧ cat ∈ categories
    ∧ image_counts s !! cat = Some n
    ∧ image_counts s !! "total" = Some t
    ∧ (counts_incr key;; counts_incr (PStr "total")) s
      = (Ok (), State (st_world s) (st_trace s)
                  (<["total" := t + 1]> (<[cat := n + 1]> (image_counts s)))).
Proof.
  intros Hinit Hs Hfilter.
  destruct (apply_filter_category _ _ _ _ Hfilter) as (cat & -> & Hcat).
  assert (total_is_sum (image_counts s)) as Hinv.
  { rewrite Hs. apply process_all_total_is_sum. rewrite Hinit.
    apply total_is_sum_initial. }
  destruct (total_is_sum_lookup _ _ Hinv Hcat) as (n & t & Hn & Ht).
  exists cat, n, t. repeat split; try done.
  by apply counts_bump_ok; [apply category_not_total|..].
Qed.

End Properties.

(** * Concrete runs *)

(** C3. At a chart that the ingestion has typed as "jpeg", the exporter
    asks the image library to write the path ending in ".jpeg" with the
    format name "JPG": the mapping of line 156 goes into the format name,
    not into the file name. The image library has no format of that name,
    so nothing is written and nothing is counted. *)
Theorem C3_jpeg_path_and_format :
  (save_images_to_disk (RT := toy_runtime) "out" default_flags
     (PList [jpeg_chart_record]) toy_state).1 = Ok initial_counts
  ∧ st_trace (save_images_to_disk (RT := toy_runtime) "out" default_flags
                (PList [jpeg_chart_record]) toy_state).2
    = [EvMakedirs "out" None;
       EvMakedirs "out/chart" None;
       EvSave "out/chart/document_0_p0_0.jpeg" "JPG" (Some KeyError);
       EvLog ERROR (MsgFailedSave "chart" "document_0" KeyError);
       EvLog INFO MsgNoImagesSaved]
  ∧ fs_files (st_world (save_images_to_disk (RT := toy_runtime) "out" default_flags
                          (PList [jpeg_chart_record]) toy_state).2) = [].
Proof. repeat split; vm_compute; reflexivity. Qed.

(** The format name is derived from the mapped extension. *)
Lemma jpeg_format_name `{RT : Runtime} : str_upper (image_ext_of "jpeg") = "JPG".
Proof. reflexivity. Qed.

Lemma C1_total_is_sum_of_categories_witness :
  (save_images_to_disk (RT := toy_runtime) "out" scenario_flags
     (PList [scenario_record png_b64]) toy_state).1
  = Ok (list_to_map
          [("chart", 0); ("table", 0); ("infographic", 0);
           ("page_image", 1); ("image", 0); ("total", 1)])
  ∧ (list_to_map
       [("chart", 0); ("table", 0); ("infographic", 0);
        ("page_image", 1); ("image", 0); ("total", 1)] : gmap string Z) ≠ ∅
  ∧ total_is_sum
      (list_to_map
         [("chart", 0); ("table", 0); ("infographic", 0);
          ("page_image", 1); ("image", 0); ("total", 1)]).
Proof.
  assert ((save_images_to_disk (RT := toy_runtime) "out" scenario_flags
             (PList [scenario_record png_b64]) toy_state).1
          = Ok (list_to_map
                  [("chart", 0); ("table", 0); ("infographic", 0);
                   ("page_image", 1); ("image", 0); ("total", 1)])) as Hrun
    by (vm_compute; reflexivity).
  assert ((list_to_map
             [("chart", 0); ("table", 0); ("infographic", 0);
              ("page_image", 1); ("image", 0); ("total", 1)] : gmap string Z) ≠ ∅)
    as Hne.
  { intros H. apply (f_equal (λ m : gmap string Z, m !! "total")) in H.
    discriminate H. }
  split; [exact Hrun|]. split; [exact Hne|].
  exact (C1_total_is_sum_of_categories (RT := toy_runtime) "out" scenario_flags
           (PList [scenario_record png_b64]) toy_state _ _
           (pair_eta_fst _ _ Hrun) Hne).
Defined.

Lemma C2_inclusion_rule_witness :
  has_fields (RT := toy_runtime) 0 (chart_record png_b64 "docs/a.pdf")
    (mk_dict
       [("content", PStr png_b64);
        ("source_metadata", mk_dict [("source_id", PStr "docs/a.pdf")]);
        ("content_metadata",
         mk_dict [("subtype", PStr "chart"); ("page_number", PInt 1)])])
    (PStr "structured") (PStr png_b64) "a.pdf" (PStr "chart") (PInt 1)
  ∧ py_truthy (PStr png_b64) = true
  ∧ inclusion_rule default_flags (PStr "structured") (PStr "chart").
Proof.
  assert (has_fields (RT := toy_runtime) 0 (chart_record png_b64 "docs/a.pdf")
            (mk_dict
               [("content", PStr png_b64);
                ("source_metadata", mk_dict [("source_id", PStr "docs/a.pdf")]);
                ("content_metadata",
                 mk_dict [("subtype", PStr "chart"); ("page_number", PInt 1)])])
            (PStr "structured") (PStr png_b64) "a.pdf" (PStr "chart") (PInt 1))
    as Hfields.
  { exists (mk_dict [("source_id", PStr "docs/a.pdf")]), (PStr "docs/a.pdf"),
      (mk_dict [("subtype", PStr "chart"); ("page_number", PInt 1)]), "docs/a.pdf".
    repeat split; reflexivity. }
  split; [exact Hfields|]. split; [reflexivity|].
  apply (proj1 (C2_inclusion_rule (RT := toy_runtime) "out" default_flags 0 _ _ _ _ _ _ _
                  toy_state Hfields eq_refl)).
  reflexivity.
Defined.

(** The property as the specification states it fails twice: with an
    output directory that cannot be created the call raises, and a payload
    that does not decode is logged without the index of its record. *)
Lemma C4_counterexample :
  (save_images_to_disk (RT := toy_runtime) "" default_flags
     (PList [empty_record]) toy_state).1 = Raise OSError
  ∧ st_trace (save_images_to_disk (RT := toy_runtime) "out" default_flags
                (PList [chart_record "abc" "docs/a.pdf"]) toy_state).2
    = [EvMakedirs "out" None;
       EvMakedirs "out/chart" None;
       EvLog ERROR (MsgFailedSave "chart" "a.pdf" Base64Error);
       EvLog INFO MsgNoImagesSaved].
Proof. split; vm_compute; reflexivity. Qed.

Lemma C4_failures_are_contained_witness :
  toy_makedirs "out" (ToyFs [] []) = (None, ToyFs ["out"] [])
  ∧ ∃ c s',
      save_images_to_disk (RT := toy_runtime) "out" default_flags
        (PList [PNone; chart_record "abc" "docs/a.pdf"; empty_record]) toy_state
      = (Ok c, s').
Proof.
  split; [reflexivity|].
  exact (proj1 (C4_failures_are_contained (RT := toy_runtime) "out" default_flags
                  [PNone; chart_record "abc" "docs/a.pdf"; empty_record]
                  toy_state (ToyFs ["out"] []) eq_refl)).
Defined.



(** In the scenario the file is named after "report.pdf", not after
    "report". *)
Lemma C6_counterexample :
  files_written
    (st_trace (save_images_to_disk (RT := toy_runtime) "out" scenario_flags
                 (PList [scenario_record png_1x1_b64]) toy_state).2)
  = ["out/page_image/report.pdf_p2_0.png"]
  ∧ files_written
      (st_trace (save_images_to_disk (RT := toy_runtime) "out" scenario_flags
                   (PList [scenario_record png_1x1_b64]) toy_state).2)
    ≠ ["out/page_image/report_p2_0.png"].
Proof. split; [vm_compute; reflexivity|vm_compute; discriminate]. Qed.

Lemma C6_page_image_scenario_witness :
  ∃ s',
    (save_images_to_disk (RT := toy_runtime) "out" scenario_flags
       (PList [scenario_record png_b64]) toy_state).1
    = Ok (list_to_map
            [("chart", 0); ("table", 0); ("infographic", 0);
             ("page_image", 1); ("image", 0); ("total", 1)])
    ∧ files_written (st_trace s') = ["out/page_image/report.pdf_p2_0.png"].
Proof.
  destruct (C6_page_image_scenario (RT := toy_runtime) "out" scenario_flags
              png_b64 "report.pdf" png_signature png_signature toy_state
              (ToyFs ["out"] []) (ToyFs ["out/page_image"; "out"] [])
              (ToyFs ["out/page_image"; "out"]
                 [("out/page_image/report.pdf_p2_0.png", png_signature)]))
    as (s' & Hrun & _ & Hfiles & _).
  - reflexivity.
  - reflexivity.
  - discriminate.
  - vm_compute. reflexivity.
  - vm_compute. reflexivity.
  - reflexivity.
  - reflexivity.
  - reflexivity.
  - vm_compute. reflexivity.
  - exists s'. split; [rewrite Hrun; reflexivity|exact Hfiles].
Defined.

Lemma C8_no_input_returns_empty_mapping_witness :
  save_images_from_response (RT := toy_runtime) "out" default_flags
    {["data" := PList []]} toy_state
  = (Ok ∅, with_event toy_state (EvLog WARNING MsgNoDataInResponse)).
Proof.
  refine (proj1 (C8_no_input_returns_empty_mapping (RT := toy_runtime) "out"
                   default_flags {["data" := PList []]} toy_state _)).
  right. exists (PList []). split; reflexivity.
Defined.

Lemma C9_no_content_no_effect_witness :
  process_document (RT := toy_runtime) "out" default_flags 0 empty_record toy_state
  = (Ok (), toy_state).
Proof.
  refine (C9_no_content_no_effect (RT := toy_runtime) "out" default_flags 0
            (list_to_map [("metadata", mk_dict [])]) ∅ toy_state _ _);
    reflexivity.
Defined.

Lemma C10_counted_category_is_a_key_witness :
  ∃ cat n t,
    PStr "page_image" = PStr cat ∧ cat ∈ categories
    ∧ (<["total" := 1]> (<["page_image" := 1]> initial_counts) : gmap string Z) !! cat
      = Some n
    ∧ (<["total" := 1]> (<["page_image" := 1]> initial_counts) : gmap string Z) !! "total"
      = Some t.
Proof.
  destruct (C10_counted_category_is_a_key (RT := toy_runtime) "out" scenario_flags
              [scenario_record png_b64]
              (toy_state_with initial_counts)
              (toy_state_with (<["total" := 1]> (<["page_image" := 1]> initial_counts)))
              (PStr "image") (PStr "page_image") (PStr "page_image"))
    as (cat & n & t & Hkey & Hcat & Hn & Ht & _).
  - reflexivity.
  - vm_compute. reflexivity.
  - reflexivity.
  - exists cat, n, t. split; [exact Hkey|]. split; [exact Hcat|].
    split; [exact Hn|exact Ht].
Defined.

(** The example of the specification for the batch adapter: the indices
    in the file names are 0, 1, 2 for the grouping [[r1, r2], r3]. *)
Example batch_indices :
  files_written
    (st_trace
       (save_images_from_ingestor_results (RT := toy_runtime) "out" default_flags
          [PList [chart_record png_b64 "a.pdf"; chart_record png_b64 "b.pdf"];
           chart_record png_b64 "c.pdf"] toy_state).2)
  = ["out/chart/a.pdf_p1_0.png"; "out/chart/b.pdf_p1_1.png";
     "out/chart/c.pdf_p1_2.png"].
Proof. vm_compute. reflexivity. Qed.

(** * Further properties: one turn of the loop, observed *)

Section TurnFacts.
Context `{RT : Runtime}.

Lemma save_calls_app t1 t2 :
  save_calls (t1 ++ t2) = (save_calls t1 ++ save_calls t2)%list.
Proof. apply omap_app. Qed.

Lemma save_calls_log t lvl msg : save_calls (t ++ [EvLog lvl msg]) = save_calls t.
Proof. rewrite save_calls_app. cbn. apply app_nil_r. Qed.

Lemma save_calls_makedirs t path r : save_calls (t ++ [EvMakedirs path r]) = save_calls t.
Proof. rewrite save_calls_app. cbn. apply app_nil_r. Qed.

Lemma save_calls_only_logs t lines : only_logs lines → save_calls (t ++ lines) = save_calls t.
Proof.
  intros Hl. rewrite save_calls_app.
  assert (save_calls lines = []) as ->; [|by rewrite app_nil_r].
  induction Hl as [|ev lines (lvl & msg & ->) _ IH]; [done|]. by cbn.
Qed.

(** The files written are the writes that returned. *)
Lemma files_written_calls t : files_written t = written (save_calls t).
Proof.
  unfold files_written, written, save_calls.
  induction t as [|ev t IH]; [done|].
  destruct ev as [p r|p f [e|]|lvl msg]; simpl; try exact IH.
  f_equal. exact IH.
Qed.

Lemma written_app f1 f2 : written (f1 ++ f2) = (written f1 ++ written f2)%list.
Proof. apply omap_app. Qed.

(** ** Rules for observed triples *)

Lemma triple_ret {A} (a : A) P Q :
  (∀ c f, P c f → Q (Ok a) c f) → triple P (mret a) Q.
Proof. intros HQ s H. by apply HQ. Qed.

Lemma triple_bind {A B} (m : M A) (k : A → M B) P
    (R : A → gmap string Z → list (string * string * option exn) → Prop) Q :
  triple P m (λ r c f, match r with Ok a => R a c f | Raise e => Q (Raise e) c f end) →
  (∀ a, triple (R a) (k a) Q) →
  triple P (m ≫= k) Q.
Proof.
  intros Hm Hk s H. specialize (Hm s H).
  unfold mbind, M_bind. destruct (m s) as [[a|e] s1]; simpl in *.
  - by apply Hk.
  - done.
Qed.

Lemma triple_bind_lift {A B} (r : result A) (k : A → M B) P Q :
  (∀ e, r = Raise e → ∀ c f, P c f → Q (Raise e) c f) →
  (∀ a, r = Ok a → triple P (k a) Q) →
  triple P (lift r ≫= k) Q.
Proof.
  intros He Ha s H. unfold mbind, M_bind, lift.
  destruct r as [a|e]; simpl.
  - by apply Ha.
  - by apply He.
Qed.

Lemma triple_try {A} (m : M A) (h : exn → M A) P
    (R : exn → gmap string Z → list (string * string * option exn) → Prop) Q :
  triple P m (λ r c f, match r with Ok a => Q (Ok a) c f | Raise e => R e c f end) →
  (∀ e, triple (R e) (h e) Q) →
  triple P (try_catch m h) Q.
Proof.
  intros Hm Hh s H. specialize (Hm s H).
  unfold try_catch. destruct (m s) as [[a|e] s1]; simpl in *.
  - done.
  - by apply Hh.
Qed.

Lemma triple_log lvl msg P Q :
  (∀ c f, P c f → Q (Ok ()) c f) → triple P (log lvl msg) Q.
Proof.
  intros HQ s H. unfold log, emit. cbn. rewrite save_calls_log. by apply HQ.
Qed.

Lemma triple_makedirs path P Q :
  (∀ r c f, P c f → Q r c f) → triple P (makedirs path) Q.
Proof.
  intros HQ s H. unfold makedirs.
  destruct (os_makedirs path (st_world s)) as [[e|] w]; cbn;
    rewrite save_calls_makedirs; by apply HQ.
Qed.

Section CallTurn.
Variable output_directory : string.
Variable fl : flags.

(** The path that lines 139-147 build is the path of the naming scheme,
    and building it asks nothing of the image library. *)
Lemma triple_bind_build_image_path {B} idx clean cat page_number image_type
    (k : string → M B) P Q :
  (∀ e c f, P c f → Q (Raise e) c f) →
  triple P
    (k (image_path_of output_directory fl idx clean cat (py_str page_number)
          image_type)) Q →
  triple P
    (build_image_path output_directory fl idx clean (PStr cat) page_number image_type
     ≫= k) Q.
Proof.
  intros He Hk s H. unfold build_image_path, image_path_of in *.
  destruct (organize_by_type fl).
  - unfold mbind, M_bind, lift, makedirs. cbn [expect_str].
    destruct (os_makedirs _ _) as [[e|] w]; cbn.
    + rewrite save_calls_makedirs. by apply He.
    + apply Hk. cbn. by rewrite save_calls_makedirs.
  - by apply Hk.
Qed.

(** The inner [try], observed: no write, a write that failed, or a write
    that returned and is counted. *)
Lemma save_image_effect content cat clean image_type image_path s :
  cat ∈ categories →
  total_is_sum (image_counts s) →
  (image_counts (save_image content (PStr cat) clean image_type image_path s).2
   = image_counts s
   ∧ (save_calls (st_trace (save_image content (PStr cat) clean image_type
                               image_path s).2)
      = save_calls (st_trace s)
      ∨ ∃ e,
          save_calls (st_trace (save_image content (PStr cat) clean image_type
                                  image_path s).2)
          = (save_calls (st_trace s)
               ++ [(image_path, str_upper (image_ext_of image_type), Some e)])%list))
  ∨ (∃ n t,
       image_counts s !! cat = Some n
       ∧ image_counts s !! "total" = Some t
       ∧ image_counts (save_image content (PStr cat) clean image_type image_path s).2
         = <["total" := t + 1]> (<[cat := n + 1]> (image_counts s))
       ∧ save_calls (st_trace (save_image content (PStr cat) clean image_type
                                 image_path s).2)
         = (save_calls (st_trace s)
              ++ [(image_path, str_upper (image_ext_of image_type), None)])%list).
Proof.
  intros Hcat Hinv.
  destruct (total_is_sum_lookup _ _ Hinv Hcat) as (n & t & Hn & Ht).
  remember (save_image content (PStr cat) clean image_type image_path s) as r eqn:Hr.
  unfold save_image, try_catch, save_image_body in Hr.
  destruct (py_b64decode content) as [data|e1];
    unfold mbind at 1, M_bind at 1, lift at 1 in Hr; cbv beta iota in Hr.
  2: { subst r. left. cbn. rewrite save_calls_log. auto. }
  destruct (image_open data) as [img|e1];
    unfold mbind at 1, M_bind at 1, lift at 1 in Hr; cbv beta iota in Hr.
  2: { subst r. left. cbn. rewrite save_calls_log. auto. }
  unfold mbind at 1, M_bind at 1, save in Hr.
  destruct (image_save _ _ _ _) as [[e1|] w1].
  { subst r. left. cbn. rewrite save_calls_log, save_calls_app. eauto. }
  set (s2 := State w1 _ _) in Hr.
  pose proof (counts_bump_ok s2 cat n t (category_not_total _ Hcat) Hn Ht) as E.
  unfold mbind, M_bind in *.
  destruct (counts_incr (PStr cat) s2) as [[[]|e1] s3]; [|done].
  rewrite E in Hr. subst r. right. exists n, t. cbn.
  rewrite save_calls_log, save_calls_app. by repeat split.
Qed.

(** One turn of the loop, observed. *)
Lemma process_document_effect idx document s :
  total_is_sum (image_counts s) →
  turn_effect output_directory fl idx document
    (image_counts s) (save_calls (st_trace s))
    (image_counts (process_document output_directory fl idx document s).2)
    (save_calls (st_trace (process_document output_directory fl idx document s).2)).
Proof.
  intros Hinv.
  set (c0 := image_counts s). set (f0 := save_calls (st_trace s)).
  assert (triple (λ c f, c = c0 ∧ f = f0)
            (process_document output_directory fl idx document)
            (λ _ c f, turn_effect output_directory fl idx document c0 f0 c f)) as Ht.
  { assert (∀ c f, c = c0 ∧ f = f0 →
                   turn_effect output_directory fl idx document c0 f0 c f) as Hquiet.
    { intros c f [-> ->]. constructor. }
    apply triple_try with (R := λ _ c f, c = c0 ∧ f = f0);
      [|intros e; by apply triple_log].
    unfold document_body.
    apply triple_bind_lift; [done|intros metadata H1].
    apply triple_bind_lift; [done|intros doc_type H2].
    apply triple_bind_lift; [done|intros content H3].
    destruct (py_truthy content) eqn:Htruthy; cbn [negb];
      [|by apply triple_ret].
    apply triple_bind_lift; [done|intros source_metadata H4].
    apply triple_bind_lift; [done|intros source_id H5].
    apply triple_bind_lift; [done|intros source_path H6].
    apply triple_bind_lift; [done|intros clean H7].
    apply triple_bind_lift; [done|intros content_metadata H8].
    apply triple_bind_lift; [done|intros subtype H9].
    apply triple_bind_lift; [done|intros page_number H10].
    destruct (apply_filter fl doc_type subtype) as [[] key] eqn:Hf; cbn [negb];
      [|by apply triple_ret].
    destruct (apply_filter_category _ _ _ _ Hf) as (cat & -> & Hcat).
    apply triple_bind_lift; [done|intros image_type H11].
    apply triple_bind_build_image_path; [done|].
    intros s1 [Hc Hf1].
    assert (save_call_of output_directory fl idx document cat
              (image_path_of output_directory fl idx clean cat (py_str page_number)
                 image_type)
              (str_upper (image_ext_of image_type))) as Hcall.
    { exists metadata, doc_type, content, clean, subtype, page_number, image_type.
      split; [|done].
      by exists source_metadata, source_id, content_metadata, source_path. }
    assert (total_is_sum (image_counts s1)) as Hinv1 by (by rewrite Hc).
    rewrite save_image_returns.
    destruct (save_image_effect content cat clean image_type
                (image_path_of output_directory fl idx clean cat (py_str page_number)
                   image_type) s1 Hcat Hinv1)
      as [[-> [-> | (e & ->)]] | (n & t & Hn & Ht & -> & ->)];
      rewrite Hc, Hf1; rewrite ?Hc in *.
    - constructor.
    - by econstructor.
    - by econstructor. }
  by apply Ht.
Qed.

End CallTurn.
End TurnFacts.

(** * Further properties: the whole pass, observed *)

Section PassObserved.
Context `{RT : Runtime}.
Variable output_directory : string.
Variable fl : flags.

(** The loop of lines 175-177 writes one line for each item that is not
    the total and is not zero. *)
Lemma log_items_lines items : ∀ s,
  log_items items s
  = (Ok (),
     State (st_world s)
       (st_trace s
          ++ omap (λ item : string * Z,
                     if negb (bool_decide (item.1 = "total")) && (0 <? item.2)
                     then Some (EvLog INFO (MsgSavedByType item.1 item.2))
                     else None) items)
       (image_counts s)).
Proof.
  induction items as [|[img_type count] rest IH]; intros s.
  - destruct s. cbn. by rewrite app_nil_r.
  - cbn [log_items]. unfold mbind, M_bind.
    change (omap ?g ((img_type, count) :: rest))
      with (match g (img_type, count) with
            | Some y => y :: omap g rest
            | None => omap g rest
            end).
    cbn [fst snd]. destruct (negb _ && _); cbn.
    + rewrite IH. cbn. by rewrite <-app_assoc.
    + by rewrite IH.
Qed.

Lemma counts_items_total_is_sum c ch tb ig pg im :
  c !! "chart" = Some ch → c !! "table" = Some tb →
  c !! "infographic" = Some ig → c !! "page_image" = Some pg →
  c !! "image" = Some im → c !! "total" = Some (ch + tb + ig + pg + im) →
  counts_items c
  = [("chart", ch); ("table", tb); ("infographic", ig); ("page_image", pg);
     ("image", im); ("total", ch + tb + ig + pg + im)].
Proof.
  intros H1 H2 H3 H4 H5 H6. unfold counts_items, key_order.
  repeat (change (omap ?g (?k :: ?l))
            with (match g k with Some y => y :: omap g l | None => omap g l end);
          cbv beta).
  by rewrite H1, H2, H3, H4, H5, H6.
Qed.

(** The summary of lines 172-179, as a list of lines. *)
Lemma log_summary_lines s :
  total_is_sum (image_counts s) →
  log_summary output_directory fl s
  = (Ok (),
     State (st_world s)
       (st_trace s ++ summary_lines output_directory fl (image_counts s))
       (image_counts s)).
Proof.
  intros (ch & tb & ig & pg & im & H1 & H2 & H3 & H4 & H5 & H6).
  unfold log_summary, summary_lines, mbind, M_bind, counts_getitem.
  destruct (count_images fl); cbn [mret M_ret].
  2: { destruct s. cbn. by rewrite app_nil_r. }
  rewrite H6. cbn [default]. destruct (0 <? _); cbn [mret M_ret].
  2: { done. }
  rewrite H6. unfold log, emit, get_counts. cbv beta iota.
  rewrite log_items_lines. cbn [st_world st_trace image_counts].
  rewrite (counts_items_total_is_sum _ _ _ _ _ _ H1 H2 H3 H4 H5 H6).
  unfold categories.
  repeat (change (omap ?g (?k :: ?l))
            with (match g k with Some y => y :: omap g l | None => omap g l end);
          cbv beta).
  rewrite H1, H2, H3, H4, H5. cbn [fst snd default].
  rewrite <-app_assoc. reflexivity.
Qed.

Lemma summary_lines_only_logs c : only_logs (summary_lines output_directory fl c).
Proof.
  unfold summary_lines. destruct (count_images fl); [|constructor].
  destruct (0 <? _); [|by repeat econstructor].
  constructor; [by eauto|].
  apply Forall_forall. intros ev Hin.
  apply list_elem_of_omap in Hin as (cat & _ & Hg).
  destruct (0 <? _); [|done]. injection Hg as <-. eauto.
Qed.

(** [save_images_to_disk] on a list that is not empty, once the output
    directory exists: the loop from fresh counters, then the summary. *)
Lemma save_images_to_disk_pass documents s w :
  documents ≠ [] →
  os_makedirs output_directory (st_world s) = (None, w) →
  save_images_to_disk output_directory fl (PList documents) s
  = (Ok (image_counts
           (process_all output_directory fl 0 documents
              (State w (st_trace s ++ [EvMakedirs output_directory None])
                 initial_counts)).2),
     State
       (st_world
          (process_all output_directory fl 0 documents
             (State w (st_trace s ++ [EvMakedirs output_directory None])
                initial_counts)).2)
       (st_trace
          (process_all output_directory fl 0 documents
             (State w (st_trace s ++ [EvMakedirs output_directory None])
                initial_counts)).2
          ++ summary_lines output_directory fl
               (image_counts
                  (process_all output_directory fl 0 documents
                     (State w (st_trace s ++ [EvMakedirs output_directory None])
                        initial_counts)).2))
       (image_counts
          (process_all output_directory fl 0 documents
             (State w (st_trace s ++ [EvMakedirs output_directory None])
                initial_counts)).2)).
Proof.
  intros Hne Hdir. unfold save_images_to_disk.
  cbn [py_truthy]. rewrite bool_decide_eq_false_2 by done. cbn [negb].
  unfold mbind at 1, M_bind at 1, set_counts.
  rewrite (bind_ok _ _ _ _ _
             (makedirs_ok output_directory
                (State (st_world s) (st_trace s) initial_counts) w Hdir)).
  rewrite (bind_lift_ok _ _ _ documents eq_refl).
  cbn [st_trace image_counts].
  set (s2 := State w _ _).
  pose proof (process_all_returns output_directory fl documents 0 s2) as Hok.
  pose proof (process_all_total_is_sum output_directory fl documents 0 s2
                total_is_sum_initial) as Hinv.
  destruct (process_all _ _ 0 documents s2) as [r s3] eqn:Hloop.
  cbn [fst snd] in *. subst r.
  rewrite (bind_ok _ _ _ _ _ Hloop).
  by rewrite (bind_ok _ _ _ _ _ (log_summary_lines s3 Hinv)).
Qed.

(** An invariant of the turns is an invariant of the loop. *)
Lemma process_all_effect
    (J : nat → gmap string Z → list (string * string * option exn) → Prop)
    documents : ∀ idx s,
  total_is_sum (image_counts s) →
  J idx (image_counts s) (save_calls (st_trace s)) →
  (∀ i document c f c' f',
     documents !! (i - idx)%nat = Some document → (idx ≤ i)%nat →
     total_is_sum c → J i c f →
     turn_effect output_directory fl i document c f c' f' →
     J (S i) c' f') →
  J (idx + length documents)%nat
    (image_counts (process_all output_directory fl idx documents s).2)
    (save_calls (st_trace (process_all output_directory fl idx documents s).2)).
Proof.
  induction documents as [|document rest IH]; intros idx s Hinv HJ Hstep.
  - cbn. by rewrite Nat.add_0_r.
  - rewrite process_all_cons. cbn [length].
    replace (idx + S (length rest))%nat with (S idx + length rest)%nat by lia.
    apply IH.
    + by apply keeps_process_document.
    + apply (Hstep idx document (image_counts s) (save_calls (st_trace s)));
        [by rewrite Nat.sub_diag|done|done|done|].
      by apply process_document_effect.
    + intros i doc c f c' f' Hlook Hle. apply Hstep; [|lia].
      replace (i - idx)%nat with (S (i - S idx)) by lia. done.
Qed.


(** A call that gets past its first test and returns has created the
    output directory, has iterated over its input and has run the loop and
    the summary. *)
Lemma save_images_to_disk_truthy_inv response_data s c s' :
  py_truthy response_data = true →
  save_images_to_disk output_directory fl response_data s = (Ok c, s') →
  ∃ w documents,
    os_makedirs output_directory (st_world s) = (None, w)
    ∧ py_iter response_data = Ok documents
    ∧ c = image_counts
            (process_all output_directory fl 0 documents
               (State w (st_trace s ++ [EvMakedirs output_directory None])
                  initial_counts)).2
    ∧ st_world s'
      = st_world
          (process_all output_directory fl 0 documents
             (State w (st_trace s ++ [EvMakedirs output_directory None])
                initial_counts)).2
    ∧ st_trace s'
      = (st_trace
           (process_all output_directory fl 0 documents
              (State w (st_trace s ++ [EvMakedirs output_directory None])
                 initial_counts)).2
           ++ summary_lines output_directory fl c)%list.
Proof.
  intros Htruthy. unfold save_images_to_disk. rewrite Htruthy. cbn [negb].
  unfold mbind at 1, M_bind at 1, set_counts.
  unfold mbind at 1, M_bind at 1, makedirs. cbn [st_world st_trace image_counts].
  destruct (os_makedirs output_directory (st_world s)) as [[e|] w] eqn:Hdir; [done|].
  destruct (py_iter response_data) as [documents|e] eqn:Hiter;
    unfold mbind at 1, M_bind at 1, lift at 1; cbv beta iota; [|done].
  set (s2 := State w _ _).
  pose proof (process_all_returns output_directory fl documents 0 s2) as Hok.
  pose proof (process_all_total_is_sum output_directory fl documents 0 s2
                total_is_sum_initial) as Hinv.
  destruct (process_all _ _ 0 documents s2) as [r s3] eqn:Hloop.
  cbn [fst snd] in *. subst r.
  rewrite (bind_ok _ _ _ _ _ Hloop).
  rewrite (bind_ok _ _ _ _ _ (log_summary_lines s3 Hinv)).
  intros [= <- <-]. exists w, documents. fold s2. by rewrite Hloop.
Qed.

Lemma save_images_to_disk_inv response_data s c s' :
  save_images_to_disk output_directory fl response_data s = (Ok c, s') →
  c ≠ ∅ →
  ∃ w documents,
    os_makedirs output_directory (st_world s) = (None, w)
    ∧ py_iter response_data = Ok documents
    ∧ c = image_counts
            (process_all output_directory fl 0 documents
               (State w (st_trace s ++ [EvMakedirs output_directory None])
                  initial_counts)).2
    ∧ st_world s'
      = st_world
          (process_all output_directory fl 0 documents
             (State w (st_trace s ++ [EvMakedirs output_directory None])
                initial_counts)).2
    ∧ st_trace s'
      = (st_trace
           (process_all output_directory fl 0 documents
              (State w (st_trace s ++ [EvMakedirs output_directory None])
                 initial_counts)).2
           ++ summary_lines output_directory fl c)%list.
Proof.
  intros Hrun Hne. destruct (py_truthy response_data) eqn:Htruthy.
  - by eapply save_images_to_disk_truthy_inv.
  - unfold save_images_to_disk in Hrun. rewrite Htruthy in Hrun.
    cbn in Hrun. by injection Hrun as <-.
Qed.

(** A list that is empty yields the empty mapping and one warning. *)
Lemma save_images_to_disk_nil s :
  save_images_to_disk output_directory fl (PList []) s
  = (Ok ∅, with_event s (EvLog WARNING MsgNoResponseData)).
Proof. done. Qed.

End PassObserved.

(** * Further properties of [save_images_to_disk] *)

Section CallProperties.
Context `{RT : Runtime}.
Variable output_directory : string.
Variable fl : flags.

Lemma save_call_of_filter idx document cat path fmt :
  save_call_of output_directory fl idx document cat path fmt →
  ∃ doc_type subtype, apply_filter fl doc_type subtype = (true, PStr cat).
Proof. intros (? & dt & ? & ? & st & ? & ? & _ & _ & Hf & _). eauto. Qed.

(** What the filter keeps is kept under a category whose flag is on. *)
Lemma apply_filter_enabled doc_type subtype cat :
  apply_filter fl doc_type subtype = (true, PStr cat) →
  category_enabled fl cat = true.
Proof.
  intros Hf.
  assert (inclusion_rule fl doc_type subtype) as [Hn|Hr]
    by (apply apply_filter_rule; by rewrite Hf).
  - rewrite (apply_filter_named fl _ _ Hn) in Hf. injection Hf as ->.
    destruct Hn as (name & Hname & [= <-] & Hflag).
    unfold category_enabled. rewrite bool_decide_eq_false_2; [done|].
    intros ->. unfold named_subtypes in Hname. set_solver.
  - rewrite (apply_filter_raw fl _ _ Hr) in Hf. injection Hf as <-.
    unfold category_enabled. rewrite bool_decide_eq_true_2 by done.
    by destruct Hr as (_ & _ & ?).
Qed.

Lemma apply_filter_nothing_enabled doc_type subtype :
  nothing_enabled fl → (apply_filter fl doc_type subtype).1 = false.
Proof.
  intros (H1 & H2 & H3 & H4 & H5). unfold apply_filter.
  by rewrite H1, H2, H3, H4, H5, !andb_false_r.
Qed.

Lemma initial_counts_values k m : initial_counts !! k = Some m → m = 0.
Proof.
  unfold initial_counts. intros H.
  repeat (apply lookup_insert_Some in H as [[_ <-]|[_ H]]; [done|]).
  by rewrite lookup_empty in H.
Qed.

(** X1. When a call returns a mapping that is not empty, the value under
    "total" is the number of files that the call has written. *)
Theorem X1_total_is_number_of_files_written response_data s c s' :
  save_images_to_disk output_directory fl response_data s = (Ok c, s') →
  c ≠ ∅ →
  ∃ new,
    files_written (st_trace s') = (files_written (st_trace s) ++ new)%list
    ∧ c !! "total" = Some (Z.of_nat (length new)).
Proof.
  intros Hrun Hne.
  destruct (save_images_to_disk_inv _ _ _ _ _ _ Hrun Hne)
    as (w & documents & _ & _ & -> & _ & ->).
  set (s1 := State w _ initial_counts).
  pose proof (process_all_effect output_directory fl
                (λ _ c f, ∃ new,
                   written f = (written (save_calls (st_trace s)) ++ new)%list
                   ∧ c !! "total" = Some (Z.of_nat (length new)))
                documents 0 s1 total_is_sum_initial) as Hloop.
  cbv beta in Hloop.
  destruct Hloop as (new & Hfiles & Htotal).
  - exists []. split; [|done]. subst s1. cbn [st_trace].
    by rewrite save_calls_makedirs, app_nil_r.
  - intros i document c0 f0 c1 f1 _ _ _ (new & Hfiles & Htotal) Hturn.
    destruct Hturn as [|cat path fmt e _|cat path fmt n t _ Hcat Hn Ht].
    + by exists new.
    + exists new. split; [|done]. rewrite written_app. cbn. by rewrite app_nil_r.
    + exists (new ++ [path])%list. split.
      * rewrite written_app, Hfiles. cbn. by rewrite <-app_assoc.
      * rewrite lookup_insert_eq. f_equal.
        rewrite Htotal in Ht. injection Ht as <-. rewrite length_app. cbn. lia.
  - exists new. split; [|done].
    rewrite !files_written_calls, (save_calls_only_logs _ _ (summary_lines_only_logs _ _ _)).
    done.
Qed.

(** X2. On a list of records, every counter that a call returns lies
    between 0 and the number of records. *)
Theorem X2_counters_bounded_by_number_of_records documents s c s' key n :
  save_images_to_disk output_directory fl (PList documents) s = (Ok c, s') →
  c !! key = Some n →
  0 ≤ n ≤ Z.of_nat (length documents).
Proof.
  intros Hrun Hkey.
  assert (c ≠ ∅) as Hne by (intros ->; by rewrite lookup_empty in Hkey).
  destruct (save_images_to_disk_inv _ _ _ _ _ _ Hrun Hne)
    as (w & documents' & _ & [= <-] & -> & _ & _).
  set (s1 := State w _ initial_counts) in *.
  pose proof (process_all_effect output_directory fl
                (λ i c _, ∀ k m, c !! k = Some m → 0 ≤ m ≤ Z.of_nat i)
                documents 0 s1 total_is_sum_initial) as Hloop.
  cbv beta in Hloop. refine (Hloop _ _ key n Hkey).
  - intros k m Hk. subst s1. cbn [image_counts] in Hk.
    apply initial_counts_values in Hk as ->. lia.
  - intros i document c0 f0 c1 f1 _ _ _ Hbound Hturn k m.
    destruct Hturn as [|cat path fmt e _|cat path fmt n0 t _ Hcat Hn Ht].
    + intros Hk. specialize (Hbound k m Hk). lia.
    + intros Hk. specialize (Hbound k m Hk). lia.
    + pose proof (Hbound _ _ Hn). pose proof (Hbound _ _ Ht).
      rewrite lookup_insert. case_decide; [intros [= <-]; lia|].
      rewrite lookup_insert. case_decide; [intros [= <-]; lia|].
      intros Hk. specialize (Hbound k m Hk). lia.
Qed.

(** X3. On a list of records, a call asks the image library for at most
    one write per record. *)
Theorem X3_at_most_one_write_per_record documents s c s' :
  save_images_to_disk output_directory fl (PList documents) s = (Ok c, s') →
  (length (save_calls (st_trace s'))
   ≤ length (save_calls (st_trace s)) + length documents)%nat.
Proof.
  intros Hrun. destruct documents as [|document rest].
  { rewrite save_images_to_disk_nil in Hrun. injection Hrun as _ <-.
    cbn. rewrite save_calls_log. lia. }
  destruct (save_images_to_disk_truthy_inv _ _ (PList (document :: rest)) _ _ _
              eq_refl Hrun)
    as (w & documents & _ & [= <-] & _ & _ & ->).
  rewrite (save_calls_only_logs _ _ (summary_lines_only_logs _ _ _)).
  set (s1 := State w _ initial_counts) in *.
  pose proof (process_all_effect output_directory fl
                (λ i _ f, (length f ≤ length (save_calls (st_trace s)) + i)%nat)
                (document :: rest) 0 s1 total_is_sum_initial) as Hloop.
  cbv beta in Hloop. apply Hloop.
  - subst s1. cbn [st_trace]. rewrite save_calls_makedirs. lia.
  - intros i doc c0 f0 c1 f1 _ _ _ Hbound Hturn.
    destruct Hturn; rewrite ?length_app; cbn; lia.
Qed.

(** X4. With every save flag off, a call that returns a mapping that is
    not empty returns the zeroed mapping and has asked nothing of the image
    library, although it has created the output directory. *)
Theorem X4_nothing_enabled_nothing_written response_data s c s' :
  nothing_enabled fl →
  save_images_to_disk output_directory fl response_data s = (Ok c, s') →
  c ≠ ∅ →
  c = initial_counts
  ∧ save_calls (st_trace s') = save_calls (st_trace s)
  ∧ ∃ w, os_makedirs output_directory (st_world s) = (None, w).
Proof.
  intros Hoff Hrun Hne.
  destruct (save_images_to_disk_inv _ _ _ _ _ _ Hrun Hne)
    as (w & documents & Hdir & _ & -> & _ & ->).
  rewrite (save_calls_only_logs _ _ (summary_lines_only_logs _ _ _)).
  set (s1 := State w _ initial_counts) in *.
  pose proof (process_all_effect output_directory fl
                (λ _ c f, c = initial_counts ∧ f = save_calls (st_trace s))
                documents 0 s1 total_is_sum_initial) as Hloop.
  cbv beta in Hloop. destruct Hloop as [Hc Hf].
  - subst s1. cbn [st_trace image_counts]. by rewrite save_calls_makedirs.
  - intros i document c0 f0 c1 f1 _ _ _ [-> ->] Hturn.
    destruct Hturn as [|cat path fmt e Hcall|cat path fmt n t Hcall _ _ _]; [done|..];
      destruct (save_call_of_filter _ _ _ _ _ Hcall) as (dt & st & Hf);
      pose proof (apply_filter_nothing_enabled dt st Hoff) as Hno;
      by rewrite Hf in Hno.
  - split; [done|]. split; [done|]. eauto.
Qed.

(** X5. A category whose flag is off is never counted: the value that a
    call returns under it is 0. *)
Theorem X5_disabled_category_stays_zero response_data s c s' cat :
  cat ∈ categories →
  category_enabled fl cat = false →
  save_images_to_disk output_directory fl response_data s = (Ok c, s') →
  c ≠ ∅ →
  c !! cat = Some 0.
Proof.
  intros Hcat Hoff Hrun Hne.
  destruct (save_images_to_disk_inv _ _ _ _ _ _ Hrun Hne)
    as (w & documents & _ & _ & -> & _ & _).
  set (s1 := State w _ initial_counts) in *.
  pose proof (process_all_effect output_directory fl
                (λ _ c _, c !! cat = Some 0)
                documents 0 s1 total_is_sum_initial) as Hloop.
  cbv beta in Hloop. apply Hloop.
  - subst s1. cbn [image_counts]. apply category_cases in Hcat.
    by destruct Hcat as [->|[->|[->|[->| ->]]]].
  - intros i document c0 f0 c1 f1 _ _ _ Hzero Hturn.
    destruct Hturn as [|cat' path fmt e _|cat' path fmt n t Hcall Hcat' Hn Ht];
      [done..|].
    destruct (save_call_of_filter _ _ _ _ _ Hcall) as (dt & st & Hf).
    pose proof (apply_filter_enabled dt st cat' Hf) as Hon.
    rewrite lookup_insert_ne by (intros <-; by apply category_not_total in Hcat).
    rewrite lookup_insert_ne; [done|]. intros ->. by rewrite Hon in Hoff.
Qed.

(** X6. The trace of a call that returns a mapping that is not empty ends
    in the lines of the summary for that mapping: nothing without
    [count_images]; else the total followed by one line for each category
    that is not zero, in the order chart, table, infographic, page_image,
    image, or the single line that says that nothing was saved. The
    summary itself, on consistent counters, returns normally and changes
    nothing but the log. *)
Theorem X6_summary_lines response_data s c s' :
  save_images_to_disk output_directory fl response_data s = (Ok c, s') →
  c ≠ ∅ →
  (∃ before, st_trace s' = (before ++ summary_lines output_directory fl c)%list)
  ∧ (∀ s0, image_counts s0 = c →
       log_summary output_directory fl s0
       = (Ok (),
          State (st_world s0)
            (st_trace s0 ++ summary_lines output_directory fl c) c)).
Proof.
  intros Hrun Hne.
  destruct (save_images_to_disk_inv _ _ _ _ _ _ Hrun Hne)
    as (w & documents & _ & _ & Hc & _ & Htrace).
  split; [by eexists|].
  intros s0 <-. apply log_summary_lines. rewrite Hc.
  apply process_all_total_is_sum, total_is_sum_initial.
Qed.

End CallProperties.

(** * Further properties: strings and paths *)

Lemma str_has_app c a b : str_has c (a ++ b) = str_has c a || str_has c b.
Proof.
  induction a as [|x a IH]; [done|].
  change (str_has c (String x (a ++ b)) = str_has c (String x a) || str_has c b).
  cbn [str_has]. by rewrite IH, orb_assoc.
Qed.

Lemma after_last_from_none c y : ∀ acc,
  str_has c y = false → after_last_from c acc y = acc ++ y.
Proof.
  induction y as [|x y IH]; intros acc; cbn [str_has after_last_from].
  - intros _. induction acc as [|a acc IHa]; [done|].
    change (String a acc = String a (acc ++ "")). by rewrite <-IHa.
  - intros [Hx Hy]%orb_false_elim. rewrite Hx, IH by done.
    by rewrite str_app_assoc.
Qed.

(** After the last occurrence comes what holds no occurrence. *)
Lemma after_last_split c x y :
  str_has c y = false → after_last c (x ++ String c y) = y.
Proof.
  intros Hy. unfold after_last. generalize "" as acc.
  induction x as [|a x IH]; intros acc.
  - change ("" ++ String c y) with (String c y). cbn [after_last_from].
    rewrite bool_decide_eq_true_2 by done. by rewrite after_last_from_none.
  - change (String a x ++ String c y) with (String a (x ++ String c y)).
    cbn [after_last_from]. destruct (bool_decide (a = c)); apply IH.
Qed.

Lemma before_first_split c d e :
  str_has c d = false → before_first c (d ++ String c e) = d.
Proof.
  induction d as [|x d IH]; cbn [str_has].
  - intros _. change ("" ++ String c e) with (String c e). cbn [before_first].
    by rewrite bool_decide_eq_true_2.
  - intros [Hx Hd]%orb_false_elim.
    change (String x d ++ String c e) with (String x (d ++ String c e)).
    cbn [before_first]. by rewrite Hx, IH.
Qed.

(** [os.path.basename] leaves a name without a slash as it is. *)
Lemma os_path_basename_no_slash name :
  str_has "/" name = false → os_path_basename name = name.
Proof.
  intros Hname. unfold os_path_basename.
  assert (∀ acc, basename_from acc name = acc ++ name) as H; [|by rewrite H].
  induction name as [|x name IH]; intros acc; cbn [str_has basename_from] in *.
  - induction acc as [|a acc IHa]; [done|].
    change (String a acc = String a (acc ++ "")). by rewrite <-IHa.
  - apply orb_false_elim in Hname as [Hx Hn]. rewrite Hx, IH by done.
    by rewrite str_app_assoc.
Qed.

(** The decimal writing of a number holds digits only. *)
Lemma string_of_uint_digits c d :
  str_has c (NilEmpty.string_of_uint d) = true → (48 ≤ N_of_ascii c ≤ 57)%N.
Proof.
  induction d as [|d IH|d IH|d IH|d IH|d IH|d IH|d IH|d IH|d IH|d IH];
    cbn [NilEmpty.string_of_uint str_has]; [done|..];
    (intros [Hc|Hc]%orb_true_elim; [|by apply IH];
     apply bool_decide_eq_true in Hc as <-; by vm_compute).
Qed.

Lemma str_of_nat_digits c n :
  str_has c (str_of_nat n) = true → (48 ≤ N_of_ascii c ≤ 57)%N.
Proof.
  unfold str_of_nat, NilZero.string_of_uint.
  destruct (Nat.to_uint n) eqn:E; try (rewrite <-E; apply string_of_uint_digits).
  cbn [str_has]. intros [Hc|Hc]%orb_true_elim; [|done].
  apply bool_decide_eq_true in Hc as <-. by vm_compute.
Qed.

Lemma str_of_nat_no c n :
  ¬ (48 ≤ N_of_ascii c ≤ 57)%N → str_has c (str_of_nat n) = false.
Proof.
  intros Hc. destruct (str_has c (str_of_nat n)) eqn:E; [|done].
  by apply str_of_nat_digits in E.
Qed.

(** The decimal writing of a number determines the number. *)
Lemma str_of_nat_inj i j : str_of_nat i = str_of_nat j → i = j.
Proof.
  assert (∀ n, option_map Nat.of_uint (NilZero.uint_of_string (str_of_nat n)) = Some n)
    as Hdec.
  { intros n. unfold str_of_nat.
    pose proof (DecimalNat.Unsigned.of_to n) as Hn.
    destruct (Nat.to_uint n) as [| | | | | | | | | |] eqn:E;
      [by rewrite <-Hn|..];
      (rewrite NilZero.usu by done; cbn [option_map]; by rewrite Hn). }
  intros Heq. pose proof (Hdec i) as Hi. rewrite Heq, Hdec in Hi. by injection Hi.
Qed.

(** * Further properties: the call as a whole, and its paths *)

Section PathProperties.
Context `{RT : Runtime}.
Variable output_directory : string.
Variable fl : flags.

(** [save_images_to_disk], case by case: input that is empty; output
    directory that cannot be created; input that cannot be iterated over;
    and the pass over the records followed by the summary. *)
Lemma save_images_to_disk_unfold response_data s :
  save_images_to_disk output_directory fl response_data s
  = if negb (py_truthy response_data)
    then (Ok ∅, with_event s (EvLog WARNING MsgNoResponseData))
    else
      match os_makedirs output_directory (st_world s) with
      | (Some e, w) =>
          (Raise e,
           State w (st_trace s ++ [EvMakedirs output_directory (Some e)])
             initial_counts)
      | (None, w) =>
          match py_iter response_data with
          | Raise e =>
              (Raise e,
               State w (st_trace s ++ [EvMakedirs output_directory None])
                 initial_counts)
          | Ok documents =>
              let after :=
                (process_all output_directory fl 0 documents
                   (State w (st_trace s ++ [EvMakedirs output_directory None])
                      initial_counts)).2 in
              (Ok (image_counts after),
               State (st_world after)
                 (st_trace after
                    ++ summary_lines output_directory fl (image_counts after))
                 (image_counts after))
          end
      end.
Proof.
  unfold save_images_to_disk. destruct (py_truthy response_data); cbn [negb]; [|done].
  unfold mbind at 1, M_bind at 1, set_counts.
  unfold mbind at 1, M_bind at 1, makedirs. cbn [st_world st_trace image_counts].
  destruct (os_makedirs output_directory (st_world s)) as [[e|] w]; [done|].
  destruct (py_iter response_data) as [documents|e];
    unfold mbind at 1, M_bind at 1, lift at 1; cbv beta iota; [|done].
  set (s2 := State w _ _).
  pose proof (process_all_returns output_directory fl documents 0 s2) as Hok.
  pose proof (process_all_total_is_sum output_directory fl documents 0 s2
                total_is_sum_initial) as Hinv.
  destruct (process_all _ _ 0 documents s2) as [r s3] eqn:Hloop.
  cbn [fst snd] in *. subst r.
  rewrite (bind_ok _ _ _ _ _ Hloop).
  by rewrite (bind_ok _ _ _ _ _ (log_summary_lines _ _ s3 Hinv)).
Qed.

Lemma tail_has_no_underscore idx image_type :
  str_has "_" image_type = false →
  str_has "_" (str_of_nat idx ++ String "." image_type) = false.
Proof.
  intros Ht. rewrite str_has_app. cbn [str_has]. rewrite Ht.
  rewrite str_of_nat_no by (intros [H1 H2]; vm_compute in H1, H2; congruence).
  reflexivity.
Qed.

(** X7. Two records at different positions of one call are never given
    the same path, as long as their image types hold no underscore (as
    "png", the type of every record that is not an image document). *)
Theorem X7_distinct_positions_distinct_paths idx1 idx2 clean1 clean2
    subtype1 subtype2 page1 page2 type1 type2 s1 s2 path s1' s2' :
  build_image_path output_directory fl idx1 clean1 subtype1 page1 type1 s1
  = (Ok path, s1') →
  build_image_path output_directory fl idx2 clean2 subtype2 page2 type2 s2
  = (Ok path, s2') →
  str_has "_" type1 = false →
  str_has "_" type2 = false →
  idx1 = idx2.
Proof.
  intros H1 H2 Ht1 Ht2.
  apply build_image_path_index in H1 as (stem1 & E1).
  apply build_image_path_index in H2 as (stem2 & E2).
  assert (after_last "_" path = str_of_nat idx1 ++ String "." type1) as A1.
  { rewrite E1. apply (after_last_split "_" stem1), tail_has_no_underscore, Ht1. }
  assert (after_last "_" path = str_of_nat idx2 ++ String "." type2) as A2.
  { rewrite E2. apply (after_last_split "_" stem2), tail_has_no_underscore, Ht2. }
  rewrite A1 in A2. apply (f_equal (before_first ".")) in A2.
  rewrite !before_first_split in A2
    by (apply str_of_nat_no; intros [H1 H2]; vm_compute in H1, H2; congruence).
  by apply str_of_nat_inj.
Qed.

Lemma os_path_join_under a b :
  starts_with_slash b = false → ∃ rest, os_path_join a b = a ++ rest.
Proof.
  intros Hb. unfold os_path_join. rewrite Hb.
  destruct (_ || _); eauto.
Qed.

Lemma starts_with_slash_name clean rest :
  starts_with_slash clean = false →
  starts_with_slash (clean ++ String "_" rest) = false.
Proof. by destruct clean. Qed.

(** The path of the naming scheme lies under the output directory. *)
Lemma image_path_of_under idx clean cat page_number ext :
  cat ∈ categories →
  starts_with_slash clean = false →
  ∃ rest,
    image_path_of output_directory fl idx clean cat page_number ext
    = output_directory ++ rest.
Proof.
  intros Hcat Hclean. unfold image_path_of. destruct (organize_by_type fl).
  - destruct (os_path_join_under output_directory cat) as (r1 & ->).
    { apply category_cases in Hcat. by destruct Hcat as [->|[->|[->|[->| ->]]]]. }
    destruct (os_path_join_under (output_directory ++ r1)
                (clean ++ "_p" ++ page_number ++ "_" ++ str_of_nat idx ++ "." ++ ext))
      as (r2 & ->).
    { by apply (starts_with_slash_name clean). }
    exists (r1 ++ r2). by rewrite str_app_assoc.
  - apply os_path_join_under. by apply (starts_with_slash_name clean).
Qed.

(** X8. If the sanitiser never returns a name that begins with a slash,
    every write that a call asks of the image library goes to a path that
    begins with the output directory. *)
Theorem X8_writes_stay_under_output_directory response_data s c s' :
  (∀ name clean, get_valid_filename name = Ok clean → starts_with_slash clean = false) →
  save_images_to_disk output_directory fl response_data s = (Ok c, s') →
  ∃ new,
    save_calls (st_trace s') = (save_calls (st_trace s) ++ new)%list
    ∧ Forall (λ call : string * string * option exn,
                ∃ rest, call.1.1 = output_directory ++ rest) new.
Proof.
  intros Hsafe. rewrite save_images_to_disk_unfold.
  destruct (py_truthy response_data); cbn [negb].
  2: { intros [= _ <-]. exists []. cbn. by rewrite save_calls_log, app_nil_r. }
  destruct (os_makedirs _ _) as [[e|] w]; [done|].
  destruct (py_iter response_data) as [documents|e]; [|done].
  cbv zeta. intros [= _ <-]. cbn [st_trace].
  rewrite (save_calls_only_logs _ _ (summary_lines_only_logs _ _ _)).
  set (s1 := State w _ initial_counts).
  pose proof (process_all_effect output_directory fl
           (λ _ _ f, ∃ new,
              f = (save_calls (st_trace s) ++ new)%list
              ∧ Forall (λ call : string * string * option exn,
                          ∃ rest, call.1.1 = output_directory ++ rest) new)
           documents 0 s1 total_is_sum_initial) as Hloop.
  cbv beta in Hloop. apply Hloop.
  - exists []. subst s1. cbn [st_trace]. by rewrite save_calls_makedirs, app_nil_r.
  - intros i document c0 f0 c1 f1 _ _ _ (new & -> & Hnew) Hturn.
    assert (∀ cat path fmt,
              save_call_of output_directory fl i document cat path fmt →
              ∃ rest, path = output_directory ++ rest) as Hunder.
    { intros cat path fmt
        (metadata & doc_type & content & clean & subtype & page & it
         & Hfields & _ & Hfilter & _ & -> & _).
      destruct (apply_filter_category _ _ _ _ Hfilter) as (cat' & [= <-] & Hcat).
      apply image_path_of_under; [done|].
      destruct Hfields as (? & ? & ? & sp & _ & _ & _ & _ & _ & _ & Hname & _).
      by eapply Hsafe. }
    destruct Hturn as [|cat path fmt e Hcall|cat path fmt n t Hcall _ _ _].
    + by exists new.
    + exists (new ++ [(path, fmt, Some e)])%list. rewrite app_assoc. split; [done|].
      apply Forall_app. split; [done|]. constructor; [|done]. by eapply Hunder.
    + exists (new ++ [(path, fmt, None)])%list. rewrite app_assoc. split; [done|].
      apply Forall_app. split; [done|]. constructor; [|done]. by eapply Hunder.
Qed.

End PathProperties.

(** ** What a computation adds to the trace *)

Section Emits.
Context `{RT : Runtime}.
Variable phi : event → Prop.

Lemma emits_ret {A} (a : A) : emits phi (mret a).
Proof. intros s. exists []. by rewrite app_nil_r. Qed.

Lemma emits_lift {A} (r : result A) : emits phi (lift r).
Proof. intros s. exists []. by rewrite app_nil_r. Qed.

Lemma emits_bind {A B} (m : M A) (k : A → M B) :
  emits phi m → (∀ a, emits phi (k a)) → emits phi (m ≫= k).
Proof.
  intros Hm Hk s. unfold mbind, M_bind. destruct (Hm s) as (n1 & E1 & F1).
  destruct (m s) as [[a|e] s1]; cbn [snd] in *.
  - destruct (Hk a s1) as (n2 & E2 & F2). exists (n1 ++ n2)%list.
    rewrite E2, E1, app_assoc. split; [done|]. by apply Forall_app.
  - by exists n1.
Qed.

Lemma emits_bind_lift {A B} (r : result A) (k : A → M B) :
  (∀ a, r = Ok a → emits phi (k a)) → emits phi (lift r ≫= k).
Proof.
  intros Hk s. destruct r as [a|e].
  - apply (Hk a eq_refl).
  - exists []. cbn. by rewrite app_nil_r.
Qed.

Lemma emits_try {A} (m : M A) h :
  emits phi m → (∀ e, emits phi (h e)) → emits phi (try_catch m h).
Proof.
  intros Hm Hh s. unfold try_catch. destruct (Hm s) as (n1 & E1 & F1).
  destruct (m s) as [[a|e] s1]; cbn [snd] in *.
  - by exists n1.
  - destruct (Hh e s1) as (n2 & E2 & F2). exists (n1 ++ n2)%list.
    rewrite E2, E1, app_assoc. split; [done|]. by apply Forall_app.
Qed.

Lemma emits_log lvl msg : phi (EvLog lvl msg) → emits phi (log lvl msg).
Proof. intros H s. exists [EvLog lvl msg]. split; [done|]. by constructor. Qed.

Lemma emits_makedirs path : (∀ r, phi (EvMakedirs path r)) → emits phi (makedirs path).
Proof.
  intros H s. unfold makedirs. destruct (os_makedirs _ _) as [r w].
  exists [EvMakedirs path r]. split; [by destruct r|]. by constructor.
Qed.

Lemma emits_save img path fmt : (∀ r, phi (EvSave path fmt r)) → emits phi (save img path fmt).
Proof.
  intros H s. unfold save. destruct (image_save _ _ _ _) as [r w].
  exists [EvSave path fmt r]. split; [by destruct r|]. by constructor.
Qed.

Lemma emits_counts_incr key : emits phi (counts_incr key).
Proof.
  intros s. exists []. rewrite app_nil_r. unfold counts_incr.
  by repeat case_match.
Qed.

End Emits.

Section EdgeProperties.
Context `{RT : Runtime}.
Variable output_directory : string.
Variable fl : flags.

(** ** The directories of a call *)

Lemma emits_document_body idx document :
  emits (expected_event output_directory fl)
    (document_body output_directory fl idx document).
Proof.
  unfold document_body.
  do 3 (apply emits_bind_lift; intros ? _).
  case_match; [apply emits_ret|].
  do 7 (apply emits_bind_lift; intros ? _).
  destruct (apply_filter _ _ _) as [[] key] eqn:Hf; cbn [negb]; [|apply emits_ret].
  destruct (apply_filter_category _ _ _ _ Hf) as (cat & -> & Hcat).
  apply emits_bind_lift; intros image_type _.
  apply emits_bind.
  - unfold build_image_path. destruct (organize_by_type fl) eqn:Horg.
    + apply emits_bind_lift. intros sub [= <-].
      apply emits_bind; [|intros; apply emits_ret].
      apply emits_makedirs. intros r. right. eauto.
    + apply emits_ret.
  - intros image_path. unfold save_image, save_image_body.
    apply emits_try; [|intros; by apply emits_log].
    do 2 (apply emits_bind_lift; intros ? _).
    apply emits_bind; [by apply emits_save|intros _].
    do 2 (apply emits_bind; [apply emits_counts_incr|intros _]).
    by apply emits_log.
Qed.

Lemma emits_process_all documents : ∀ idx,
  emits (expected_event output_directory fl)
    (process_all output_directory fl idx documents).
Proof.
  induction documents as [|document rest IH]; intros idx; [apply emits_ret|].
  cbn [process_all]. apply emits_bind; [|intros _; apply IH].
  apply emits_try; [apply emits_document_body|intros; by apply emits_log].
Qed.

Lemma dirs_requested_expected lines :
  Forall (expected_event output_directory fl) lines →
  Forall (expected_dir output_directory fl) (dirs_requested lines).
Proof.
  induction 1 as [|ev lines Hev _ IH]; [constructor|].
  destruct ev; cbn; try done. by constructor.
Qed.

(** X9. A call never asks for a directory other than the output
    directory and, with [organize_by_type], the directory of one of the
    five categories under it. *)
Theorem X9_only_expected_directories response_data s :
  ∃ new,
    dirs_requested (st_trace (save_images_to_disk output_directory fl response_data s).2)
    = (dirs_requested (st_trace s) ++ new)%list
    ∧ Forall (expected_dir output_directory fl) new.
Proof.
  rewrite save_images_to_disk_unfold.
  destruct (py_truthy response_data); cbn [negb].
  2: { exists []. unfold with_event. cbn [snd st_trace].
       rewrite dirs_requested_app. split; [done|constructor]. }
  destruct (os_makedirs _ _) as [[e|] w].
  { exists [output_directory]. cbn [snd st_trace]. rewrite dirs_requested_app.
    split; [done|]. constructor; [by left|constructor]. }
  destruct (py_iter response_data) as [documents|e].
  2: { exists [output_directory]. cbn [snd st_trace]. rewrite dirs_requested_app.
       split; [done|]. constructor; [by left|constructor]. }
  cbv zeta. cbn [snd st_trace].
  set (s1 := State w _ initial_counts).
  destruct (emits_process_all documents 0 s1) as (new & -> & Hnew).
  exists (output_directory :: dirs_requested new).
  rewrite !dirs_requested_app.
  rewrite (proj2 (only_logs_silent _ (summary_lines_only_logs output_directory fl _))).
  subst s1. cbn [st_trace]. rewrite dirs_requested_app, app_nil_r, <-app_assoc.
  split; [done|]. constructor; [by left|]. by apply dirs_requested_expected.
Qed.

(** ** The flag [count_images] *)

Lemma process_all_with_count_images b documents : ∀ idx s,
  process_all output_directory (with_count_images fl b) idx documents s
  = process_all output_directory fl idx documents s.
Proof.
  induction documents as [|document rest IH]; intros idx s; [done|].
  rewrite !process_all_cons. rewrite IH. reflexivity.
Qed.

(** X10. The flag [count_images] changes the log and nothing else: the
    outcome of the call, the file system, the writes asked of the image
    library and the directories asked for are the same with and without
    it. *)
Theorem X10_count_images_changes_the_log_only b response_data s :
  let with_fl := save_images_to_disk output_directory fl response_data s in
  let with_b :=
    save_images_to_disk output_directory (with_count_images fl b) response_data s in
  with_b.1 = with_fl.1
  ∧ st_world with_b.2 = st_world with_fl.2
  ∧ save_calls (st_trace with_b.2) = save_calls (st_trace with_fl.2)
  ∧ dirs_requested (st_trace with_b.2) = dirs_requested (st_trace with_fl.2).
Proof.
  cbv zeta. rewrite !save_images_to_disk_unfold.
  destruct (py_truthy response_data); cbn [negb]; [|done].
  destruct (os_makedirs _ _) as [[e|] w]; [done|].
  destruct (py_iter response_data) as [documents|e]; [|done].
  cbv zeta. rewrite process_all_with_count_images. cbn [fst snd st_world st_trace].
  rewrite !(save_calls_only_logs _ _ (summary_lines_only_logs _ _ _)).
  rewrite !dirs_requested_app.
  by rewrite !(proj2 (only_logs_silent _ (summary_lines_only_logs _ _ _))).
Qed.

(** ** When a call raises *)

(** X11. A call raises only when the output directory cannot be created,
    or when the input is true but cannot be iterated over (a [TypeError],
    raised after the directory has been created). In both cases all it has
    done is the attempt to create the output directory: no record has been
    read, nothing is logged. *)
Theorem X11_what_a_call_can_raise response_data s e s' :
  save_images_to_disk output_directory fl response_data s = (Raise e, s') →
  py_truthy response_data = true
  ∧ ((os_makedirs output_directory (st_world s)).1 = Some e
     ∨ ((os_makedirs output_directory (st_world s)).1 = None
        ∧ py_iter response_data = Raise e ∧ e = TypeError))
  ∧ st_world s' = (os_makedirs output_directory (st_world s)).2
  ∧ st_trace s'
    = (st_trace s
         ++ [EvMakedirs output_directory (os_makedirs output_directory (st_world s)).1])%list.
Proof.
  rewrite save_images_to_disk_unfold.
  destruct (py_truthy response_data); cbn [negb]; [|done].
  destruct (os_makedirs _ _) as [[e0|] w]; cbn [fst snd].
  { intros [= <- <-]. eauto. }
  destruct (py_iter response_data) as [documents|e0] eqn:Hiter; [done|].
  intros [= <- <-]. repeat split; try done. right. repeat split.
  destruct response_data; cbn [py_iter] in Hiter; congruence.
Qed.

(** ** Records that cannot be read *)

Lemma process_document_malformed idx document s :
  malformed document = true →
  process_document output_directory fl idx document s
  = (Ok (), with_event s (EvLog ERROR (MsgFailedProcess idx AttributeError))).
Proof.
  intros Hbad. unfold process_document, try_catch, document_body.
  destruct document as [| | | | | |d]; try done.
  cbn [malformed] in Hbad.
  unfold mbind at 1, M_bind at 1, lift at 1. cbn [py_get].
  unfold mbind at 1, M_bind at 1, lift at 1.
  by destruct (default (PDict ∅) (d !! "metadata")).
Qed.

Lemma process_all_malformed documents : ∀ idx s,
  Forall (λ document, malformed document = true) documents →
  process_all output_directory fl idx documents s
  = (Ok (),
     State (st_world s)
       (st_trace s
          ++ ((λ i, EvLog ERROR (MsgFailedProcess i AttributeError))
                <$> seq idx (length documents)))
       (image_counts s)).
Proof.
  induction documents as [|document rest IH]; intros idx s Hall.
  - cbn. rewrite app_nil_r. by destruct s.
  - apply Forall_cons in Hall as [Hbad Hrest].
    rewrite process_all_cons, (process_document_malformed _ _ _ Hbad).
    cbn [snd]. rewrite (IH _ _ Hrest). cbn. by rewrite <-app_assoc.
Qed.

(** X12. A call on records none of which can be read (each is no dict,
    or its metadata is none) returns the zeroed counters, once the output
    directory exists; the trace holds one error line per record, with its
    index and in order, and then the summary. *)
Theorem X12_unreadable_records_are_reported documents s w :
  documents ≠ [] →
  Forall (λ document, malformed document = true) documents →
  os_makedirs output_directory (st_world s) = (None, w) →
  save_images_to_disk output_directory fl (PList documents) s
  = (Ok initial_counts,
     State w
       (st_trace s
          ++ [EvMakedirs output_directory None]
          ++ ((λ i, EvLog ERROR (MsgFailedProcess i AttributeError))
                <$> seq 0 (length documents))
          ++ summary_lines output_directory fl initial_counts)
       initial_counts).
Proof.
  intros Hne Hall Hdir. rewrite save_images_to_disk_unfold.
  destruct documents as [|document rest]; [done|].
  cbn [py_truthy negb py_iter]. rewrite Hdir. cbv zeta.
  rewrite (process_all_malformed _ _ _ Hall). cbn [snd st_world st_trace image_counts].
  by rewrite <-!app_assoc.
Qed.

(** X13. The name of a record is computed before the filter is applied:
    a record with content whose "source_id" is no string, or whose name
    the sanitiser rejects, ends its turn with one error line that holds its
    index, whatever the flags and the subtype, and nothing else changes. *)
Theorem X13_unusable_source_id_is_reported idx document metadata doc_type content
    source_metadata source_id e s :
  py_get document "metadata" (PDict ∅) = Ok metadata →
  py_get document "document_type" (PStr "unknown") = Ok doc_type →
  py_get metadata "content" PNone = Ok content →
  py_truthy content = true →
  py_get metadata "source_metadata" (PDict ∅) = Ok source_metadata →
  py_get source_metadata "source_id" (PStr ("document_" ++ str_of_nat idx))
  = Ok source_id →
  (source_path ← expect_str source_id;
   get_valid_filename (os_path_basename source_path)) = Raise e →
  process_document output_directory fl idx document s
  = (Ok (), with_event s (EvLog ERROR (MsgFailedProcess idx e))).
Proof.
  intros H1 H2 H3 Ht H4 H5 Hname.
  unfold process_document, try_catch, document_body.
  rewrite (bind_lift_ok _ _ _ _ H1), (bind_lift_ok _ _ _ _ H2),
    (bind_lift_ok _ _ _ _ H3), Ht. cbn [negb].
  rewrite (bind_lift_ok _ _ _ _ H4), (bind_lift_ok _ _ _ _ H5).
  destruct (expect_str source_id) as [source_path|e0] eqn:Hstr;
    cbn [mbind result_bind] in Hname.
  - rewrite (bind_lift_ok _ _ _ _ eq_refl).
    unfold mbind at 1, M_bind at 1, lift at 1. by rewrite Hname.
  - injection Hname as ->. by unfold mbind at 1, M_bind at 1, lift at 1.
Qed.

(** ** The adapters *)

Lemma flatten_results_empty_groups results :
  Forall (λ doc_results, doc_results = PList []) results →
  flatten_results results [] = [].
Proof.
  induction 1 as [|doc_results rest -> _ IH]; [done|]. exact IH.
Qed.

(** X14. The batch adapter on groups that are all empty (or on no group
    at all) returns the empty mapping, not the zeroed counters: it logs
    the warning of the exporter and creates no directory. *)
Theorem X14_batch_of_empty_groups results s :
  Forall (λ doc_results, doc_results = PList []) results →
  save_images_from_ingestor_results output_directory fl results s
  = (Ok ∅, with_event s (EvLog WARNING MsgNoResponseData)).
Proof.
  intros Hall. unfold save_images_from_ingestor_results.
  by rewrite (flatten_results_empty_groups _ Hall).
Qed.

Lemma flatten_results_groups groups :
  flatten_results (PList <$> groups) [] = concat groups.
Proof.
  rewrite flatten_results_spec. cbn. unfold flatten_spec.
  f_equal. rewrite <-list_fmap_compose. by rewrite list_fmap_id.
Qed.

(** X15. The two adapters agree: on a response whose "data" holds the
    records of some groups one after the other, the response adapter does
    what the batch adapter does on the groups. They return the same
    outcome and leave the same file system, writes and directories, and
    the same trace as soon as there is a record; with no record they differ
    in the wording of the warning only. *)
Theorem X15_adapters_agree groups response s :
  response !! "data" = Some (PList (concat groups)) →
  let of_response := save_images_from_response output_directory fl response s in
  let of_batch :=
    save_images_from_ingestor_results output_directory fl (PList <$> groups) s in
  of_response.1 = of_batch.1
  ∧ st_world of_response.2 = st_world of_batch.2
  ∧ save_calls (st_trace of_response.2) = save_calls (st_trace of_batch.2)
  ∧ dirs_requested (st_trace of_response.2) = dirs_requested (st_trace of_batch.2)
  ∧ (concat groups ≠ [] → of_response = of_batch).
Proof.
  intros Hdata. cbv zeta.
  unfold save_images_from_response, save_images_from_ingestor_results.
  rewrite Hdata, flatten_results_groups.
  destruct (concat groups) as [|document rest]; [|done].
  rewrite save_images_to_disk_nil. cbn [py_truthy].
  rewrite (bool_decide_eq_true_2 _ (eq_refl (@nil pyval))). cbn [negb].
  assert (∀ msg, ((log WARNING msg;; mret ∅) : M (gmap string Z)) s
                 = (Ok ∅, with_event s (EvLog WARNING msg))) as -> by done.
  unfold with_event. cbn [fst snd st_world st_trace].
  rewrite !save_calls_log, !dirs_requested_app. by cbn.
Qed.

End EdgeProperties.

(** * Concrete runs of the further properties *)

Lemma scenario_run :
  (save_images_to_disk (RT := toy_runtime) "out" scenario_flags
     (PList [scenario_record png_b64]) toy_state).1 = Ok scenario_counts.
Proof. vm_compute. reflexivity. Qed.

Lemma scenario_counts_not_empty : scenario_counts ≠ ∅.
Proof.
  intros H. apply (f_equal (λ m : gmap string Z, m !! "total")) in H.
  discriminate H.
Qed.

Lemma no_flags_run :
  (save_images_to_disk (RT := toy_runtime) "out" no_flags
     (PList [scenario_record png_b64]) toy_state).1 = Ok initial_counts.
Proof. vm_compute. reflexivity. Qed.

Lemma initial_counts_not_empty : initial_counts ≠ ∅.
Proof.
  intros H. apply (f_equal (λ m : gmap string Z, m !! "total")) in H.
  discriminate H.
Qed.

(** The sanitiser of the concrete runtime drops the slash. *)
Lemma get_valid_filename_model_no_slash name :
  starts_with_slash (get_valid_filename_model name) = false.
Proof.
  induction name as [|c name IH]; [done|]. cbn [get_valid_filename_model].
  destruct (bool_decide (c = " "%char)); [done|].
  destruct (safe_char c) eqn:Hsafe; [|exact IH].
  cbn [starts_with_slash]. apply bool_decide_eq_false. by intros ->.
Qed.

Lemma X1_total_is_number_of_files_written_witness :
  ∃ new,
    files_written
      (st_trace (save_images_to_disk (RT := toy_runtime) "out" scenario_flags
                   (PList [scenario_record png_b64]) toy_state).2)
    = (files_written (st_trace toy_state) ++ new)%list
    ∧ scenario_counts !! "total" = Some (Z.of_nat (length new)).
Proof.
  exact (X1_total_is_number_of_files_written (RT := toy_runtime) "out" scenario_flags
           (PList [scenario_record png_b64]) toy_state _ _
           (pair_eta_fst _ _ scenario_run) scenario_counts_not_empty).
Defined.

Lemma X2_counters_bounded_by_number_of_records_witness :
  0 ≤ 1 ≤ Z.of_nat (length [scenario_record png_b64]).
Proof.
  refine (X2_counters_bounded_by_number_of_records (RT := toy_runtime) "out"
            scenario_flags [scenario_record png_b64] toy_state _ _ "page_image" 1
            (pair_eta_fst _ _ scenario_run) _).
  reflexivity.
Defined.

Lemma X3_at_most_one_write_per_record_witness :
  (length (save_calls
             (st_trace (save_images_to_disk (RT := toy_runtime) "out" scenario_flags
                          (PList [scenario_record png_b64]) toy_state).2))
   ≤ length (save_calls (st_trace toy_state)) + length [scenario_record png_b64])%nat.
Proof.
  exact (X3_at_most_one_write_per_record (RT := toy_runtime) "out" scenario_flags
           [scenario_record png_b64] toy_state _ _ (pair_eta_fst _ _ scenario_run)).
Defined.

Lemma X4_nothing_enabled_nothing_written_witness :
  nothing_enabled no_flags
  ∧ save_calls
      (st_trace (save_images_to_disk (RT := toy_runtime) "out" no_flags
                   (PList [scenario_record png_b64]) toy_state).2)
    = save_calls (st_trace toy_state).
Proof.
  assert (nothing_enabled no_flags) as Hoff by (repeat split; reflexivity).
  split; [exact Hoff|].
  exact (proj1 (proj2 (X4_nothing_enabled_nothing_written (RT := toy_runtime) "out"
                         no_flags (PList [scenario_record png_b64]) toy_state _ _
                         Hoff (pair_eta_fst _ _ no_flags_run)
                         initial_counts_not_empty))).
Defined.

Lemma X5_disabled_category_stays_zero_witness :
  "image" ∈ categories
  ∧ category_enabled scenario_flags "image" = false
  ∧ scenario_counts !! "image" = Some 0.
Proof.
  assert ("image" ∈ categories) as Hcat by (unfold categories; set_solver).
  split; [exact Hcat|]. split; [reflexivity|].
  exact (X5_disabled_category_stays_zero (RT := toy_runtime) "out" scenario_flags
           (PList [scenario_record png_b64]) toy_state _ _ "image" Hcat eq_refl
           (pair_eta_fst _ _ scenario_run) scenario_counts_not_empty).
Defined.

Lemma X6_summary_lines_witness :
  ∃ before,
    st_trace (save_images_to_disk (RT := toy_runtime) "out" scenario_flags
                (PList [scenario_record png_b64]) toy_state).2
    = (before
         ++ [EvLog INFO (MsgSavedTotal 1 "out");
             EvLog INFO (MsgSavedByType "page_image" 1)])%list.
Proof.
  exact (proj1 (X6_summary_lines (RT := toy_runtime) "out" scenario_flags
                  (PList [scenario_record png_b64]) toy_state _ _
                  (pair_eta_fst _ _ scenario_run) scenario_counts_not_empty)).
Defined.

Lemma X7_distinct_positions_distinct_paths_witness :
  (build_image_path (RT := toy_runtime) "out" flat_flags 3 "a_b" (PStr "chart")
     (PInt 1) "png" toy_state).1 = Ok "out/a_b_chart_p1_3.png"
  ∧ (build_image_path (RT := toy_runtime) "out" flat_flags 3 "a" (PStr "b_chart")
       (PInt 1) "png" toy_state).1 = Ok "out/a_b_chart_p1_3.png"
  ∧ 3%nat = 3%nat.
Proof.
  assert ((build_image_path (RT := toy_runtime) "out" flat_flags 3 "a_b" (PStr "chart")
             (PInt 1) "png" toy_state).1 = Ok "out/a_b_chart_p1_3.png") as H1
    by (vm_compute; reflexivity).
  assert ((build_image_path (RT := toy_runtime) "out" flat_flags 3 "a" (PStr "b_chart")
             (PInt 1) "png" toy_state).1 = Ok "out/a_b_chart_p1_3.png") as H2
    by (vm_compute; reflexivity).
  split; [exact H1|]. split; [exact H2|].
  exact (X7_distinct_positions_distinct_paths (RT := toy_runtime) "out" flat_flags
           3 3 _ _ _ _ _ _ "png" "png" toy_state toy_state _ _ _
           (pair_eta_fst _ _ H1) (pair_eta_fst _ _ H2) eq_refl eq_refl).
Defined.

Lemma X8_writes_stay_under_output_directory_witness :
  ∃ new,
    save_calls
      (st_trace (save_images_to_disk (RT := toy_runtime) "out" scenario_flags
                   (PList [scenario_record png_b64]) toy_state).2)
    = (save_calls (st_trace toy_state) ++ new)%list
    ∧ Forall (λ call : string * string * option exn, ∃ rest, call.1.1 = "out" ++ rest)
        new.
Proof.
  refine (X8_writes_stay_under_output_directory (RT := toy_runtime) "out"
            scenario_flags (PList [scenario_record png_b64]) toy_state _ _ _
            (pair_eta_fst _ _ scenario_run)).
  intros name clean [= <-]. apply get_valid_filename_model_no_slash.
Defined.

Lemma X11_what_a_call_can_raise_witness :
  (save_images_to_disk (RT := toy_runtime) "" default_flags
     (PList [empty_record]) toy_state).1 = Raise OSError
  ∧ st_trace (save_images_to_disk (RT := toy_runtime) "" default_flags
                (PList [empty_record]) toy_state).2
    = (st_trace toy_state
         ++ [EvMakedirs "" (os_makedirs (Runtime := toy_runtime) ""
                              (st_world toy_state)).1])%list.
Proof.
  assert ((save_images_to_disk (RT := toy_runtime) "" default_flags
             (PList [empty_record]) toy_state).1 = Raise OSError) as Hrun
    by (vm_compute; reflexivity).
  split; [exact Hrun|].
  exact (proj2 (proj2 (proj2 (X11_what_a_call_can_raise (RT := toy_runtime) ""
                                default_flags (PList [empty_record]) toy_state _ _
                                (pair_eta_fst _ _ Hrun))))).
Defined.

Lemma X12_unreadable_records_are_reported_witness :
  save_images_to_disk (RT := toy_runtime) "out" default_flags
    (PList [PNone; mk_dict [("metadata", PStr "none")]]) toy_state
  = (Ok initial_counts,
     State (ToyFs ["out"] [])
       (st_trace toy_state
          ++ [EvMakedirs "out" None]
          ++ ((λ i, EvLog ERROR (MsgFailedProcess i AttributeError))
                <$> seq 0 (length [PNone; mk_dict [("metadata", PStr "none")]]))
          ++ summary_lines "out" default_flags initial_counts)
       initial_counts).
Proof.
  refine (X12_unreadable_records_are_reported (RT := toy_runtime) "out" default_flags
            [PNone; mk_dict [("metadata", PStr "none")]] toy_state
            (ToyFs ["out"] []) _ _ _).
  - discriminate.
  - repeat constructor.
  - reflexivity.
Defined.

Lemma X13_unusable_source_id_is_reported_witness :
  process_document (RT := toy_runtime) "out" no_flags 7 numbered_record toy_state
  = (Ok (), with_event toy_state (EvLog ERROR (MsgFailedProcess 7 TypeError))).
Proof.
  refine (X13_unusable_source_id_is_reported (RT := toy_runtime) "out" no_flags 7
            numbered_record
            (mk_dict
               [("content", PStr png_b64);
                ("source_metadata", mk_dict [("source_id", PInt 5)])])
            (PStr "unknown") (PStr png_b64)
            (mk_dict [("source_id", PInt 5)]) (PInt 5) TypeError toy_state
            _ _ _ _ _ _ _);
    reflexivity.
Defined.

Lemma X14_batch_of_empty_groups_witness :
  save_images_from_ingestor_results (RT := toy_runtime) "out" default_flags
    [PList []; PList []] toy_state
  = (Ok ∅, with_event toy_state (EvLog WARNING MsgNoResponseData)).
Proof.
  refine (X14_batch_of_empty_groups (RT := toy_runtime) "out" default_flags
            [PList []; PList []] toy_state _).
  repeat constructor.
Defined.

Lemma X15_adapters_agree_witness :
  (save_images_from_response (RT := toy_runtime) "out" default_flags
     {["data" := PList [chart_record png_b64 "a.pdf"; chart_record png_b64 "b.pdf"]]}
     toy_state).1
  = (save_images_from_ingestor_results (RT := toy_runtime) "out" default_flags
       (PList <$> [[chart_record png_b64 "a.pdf"]; []; [chart_record png_b64 "b.pdf"]])
       toy_state).1.
Proof.
  refine (proj1 (X15_adapters_agree (RT := toy_runtime) "out" default_flags
                   [[chart_record png_b64 "a.pdf"]; []; [chart_record png_b64 "b.pdf"]]
                   {["data" := PList [chart_record png_b64 "a.pdf";
                                      chart_record png_b64 "b.pdf"]]}
                   toy_state _)).
  reflexivity.
Defined.

(** * Names, image types and the order of the batch *)

Section RecordProperties.
Context `{RT : Runtime}.
Variable output_directory : string.
Variable fl : flags.

(** The path of the naming scheme ends in the index of the record and the
    image type. *)
Lemma image_path_of_index idx clean cat page_number ext :
  ∃ stem,
    image_path_of output_directory fl idx clean cat page_number ext
    = stem ++ "_" ++ str_of_nat idx ++ "." ++ ext.
Proof.
  unfold image_path_of. destruct (organize_by_type fl).
  - rewrite <-(str_app_assoc clean "_p"), <-(str_app_assoc _ page_number).
    apply os_path_join_suffix.
  - rewrite <-(str_app_assoc clean "_"), <-(str_app_assoc _ cat),
      <-(str_app_assoc _ "_p"), <-(str_app_assoc _ page_number).
    apply os_path_join_suffix.
Qed.

(** The fallback name of a record holds no slash, so [os.path.basename]
    returns it whole. *)
Lemma fallback_name_basename idx :
  os_path_basename ("document_" ++ str_of_nat idx) = "document_" ++ str_of_nat idx.
Proof.
  apply os_path_basename_no_slash. rewrite str_has_app.
  rewrite str_of_nat_no by (intros [H1 H2]; vm_compute in H1, H2; congruence).
  reflexivity.
Qed.

(** X16. A record with content whose source metadata has no "source_id"
    is named after its index: the sanitiser is called on
    [document_<index>]. If the sanitiser rejects that name the turn ends
    with the error line of the record; if it returns a name and nothing
    else fails, the file is written at the path of the naming scheme built
    on that name. *)
Theorem X16_name_given_to_the_sanitiser idx d m sm content s :
  d !! "metadata" = Some (PDict m) →
  m !! "content" = Some content →
  py_truthy content = true →
  default (PDict ∅) (m !! "source_metadata") = PDict sm →
  sm !! "source_id" = None →
  (∀ e,
     get_valid_filename ("document_" ++ str_of_nat idx) = Raise e →
     process_document output_directory fl idx (PDict d) s
     = (Ok (), with_event s (EvLog ERROR (MsgFailedProcess idx e))))
  ∧ (∀ clean cm cat image_type data img w1 w2 n t,
       get_valid_filename ("document_" ++ str_of_nat idx) = Ok clean →
       default (PDict ∅) (m !! "content_metadata") = PDict cm →
       apply_filter fl (default (PStr "unknown") (d !! "document_type"))
         (default (PStr "image") (cm !! "subtype")) = (true, PStr cat) →
       determine_image_type (PDict m) (default (PStr "unknown") (d !! "document_type"))
       = Ok image_type →
       (if organize_by_type fl
        then os_makedirs (os_path_join output_directory cat) (st_world s)
        else (None, st_world s)) = (None, w1) →
       py_b64decode content = Ok data →
       image_open data = Ok img →
       image_save img
         (image_path_of output_directory fl idx clean cat
            (py_str (default (PInt 0) (cm !! "page_number"))) image_type)
         (str_upper (image_ext_of image_type)) w1 = (None, w2) →
       image_counts s !! cat = Some n →
       image_counts s !! "total" = Some t →
       process_document output_directory fl idx (PDict d) s
       = (Ok (),
          State w2
            (st_trace s
               ++ (if organize_by_type fl
                   then [EvMakedirs (os_path_join output_directory cat) None] else [])
               ++ [EvSave
                     (image_path_of output_directory fl idx clean cat
                        (py_str (default (PInt 0) (cm !! "page_number"))) image_type)
                     (str_upper (image_ext_of image_type)) None;
                   EvLog DEBUG
                     (MsgSavedImage cat
                        (image_path_of output_directory fl idx clean cat
                           (py_str (default (PInt 0) (cm !! "page_number")))
                           image_type))])
            (<["total" := t + 1]> (<[cat := n + 1]> (image_counts s))))).
Proof.
  intros Hmeta Hcontent Htruthy Hsm Hsid. split.
  - intros e Hname.
    assert (py_get (PDict d) "metadata" (PDict ∅) = Ok (PDict m)) as H1
      by (cbn [py_get]; by rewrite Hmeta).
    assert (py_get (PDict m) "content" PNone = Ok content) as H3
      by (cbn [py_get]; by rewrite Hcontent).
    assert (py_get (PDict m) "source_metadata" (PDict ∅) = Ok (PDict sm)) as H4
      by (cbn [py_get]; by rewrite Hsm).
    assert (py_get (PDict sm) "source_id" (PStr ("document_" ++ str_of_nat idx))
            = Ok (PStr ("document_" ++ str_of_nat idx))) as H5
      by (cbn [py_get]; by rewrite Hsid).
    unfold process_document, try_catch, document_body.
    rewrite (bind_lift_ok _ _ _ _ H1).
    erewrite (bind_lift_ok (py_get (PDict d) "document_type" _)) by reflexivity.
    rewrite (bind_lift_ok _ _ _ _ H3), Htruthy. cbn [negb].
    rewrite (bind_lift_ok _ _ _ _ H4), (bind_lift_ok _ _ _ _ H5).
    erewrite (bind_lift_ok (expect_str _)) by reflexivity.
    unfold mbind at 1, M_bind at 1, lift at 1.
    by rewrite fallback_name_basename, Hname.
  - intros clean cm cat image_type data img w1 w2 n t
      Hname Hcm Hfilter Htype Hdir Hdec Hopen Hsave Hn Ht.
    eapply process_document_saves; try eassumption.
    exists (PDict sm), (PStr ("document_" ++ str_of_nat idx)), (PDict cm),
      ("document_" ++ str_of_nat idx).
    cbn [py_get expect_str]. rewrite Hmeta, Hcontent, Hsm, Hsid, Hcm.
    rewrite fallback_name_basename. by repeat split.
Qed.

(** X17. Records that are not image documents are written as PNG,
    whatever their image metadata say: on a list of records none of which
    has the document type "image", every write that a call asks of the
    image library has the format name "PNG" and a path that ends in
    ".png". *)
Theorem X17_image_type_and_format documents s c s' :
  Forall (λ document,
            ∀ doc_type,
              py_get document "document_type" (PStr "unknown") = Ok doc_type →
              py_eq_str doc_type "image" = false) documents →
  save_images_to_disk output_directory fl (PList documents) s = (Ok c, s') →
  ∃ new,
    save_calls (st_trace s') = (save_calls (st_trace s) ++ new)%list
    ∧ Forall (λ call : string * string * option exn,
                call.1.2 = "PNG" ∧ ∃ stem, call.1.1 = stem ++ ".png") new.
Proof.
  intros Hdocs. rewrite save_images_to_disk_unfold.
  destruct (py_truthy (PList documents)); cbn [negb].
  2: { intros [= _ <-]. exists []. unfold with_event. cbn [st_trace].
       by rewrite save_calls_log, app_nil_r. }
  destruct (os_makedirs _ _) as [[e|] w]; [done|].
  cbn [py_iter]. cbv zeta. intros [= _ <-]. cbn [st_trace].
  rewrite (save_calls_only_logs _ _ (summary_lines_only_logs _ _ _)).
  set (s1 := State w _ initial_counts).
  pose proof (process_all_effect output_directory fl
                (λ _ _ f, ∃ new,
                   f = (save_calls (st_trace s) ++ new)%list
                   ∧ Forall (λ call : string * string * option exn,
                               call.1.2 = "PNG" ∧ ∃ stem, call.1.1 = stem ++ ".png")
                       new)
                documents 0 s1 total_is_sum_initial) as Hloop.
  cbv beta in Hloop. apply Hloop.
  - exists []. subst s1. cbn [st_trace]. by rewrite save_calls_makedirs, app_nil_r.
  - intros i document c0 f0 c1 f1 Hlookup _ _ (new & -> & Hnew) Hturn.
    assert (∀ cat path fmt,
              save_call_of output_directory fl i document cat path fmt →
              fmt = "PNG" ∧ ∃ stem, path = stem ++ ".png") as Hpng.
    { intros cat path fmt
        (metadata & doc_type & content & clean & subtype & page & image_type
         & Hfields & _ & _ & Htype & -> & ->).
      destruct Hfields as (? & ? & ? & ? & _ & Hdoc & _).
      pose proof (proj1 (Forall_lookup _ _) Hdocs _ _ Hlookup doc_type Hdoc) as Hno.
      unfold determine_image_type in Htype. rewrite Hno in Htype.
      injection Htype as <-. split; [reflexivity|].
      destruct (image_path_of_index i clean cat (py_str page) "png") as (stem & ->).
      exists (stem ++ "_" ++ str_of_nat i). by rewrite !str_app_assoc. }
    destruct Hturn as [|cat path fmt e Hcall|cat path fmt n t Hcall _ _ _].
    + by exists new.
    + exists (new ++ [(path, fmt, Some e)])%list. rewrite app_assoc. split; [done|].
      apply Forall_app. split; [done|]. constructor; [|done]. by eapply Hpng.
    + exists (new ++ [(path, fmt, None)])%list. rewrite app_assoc. split; [done|].
      apply Forall_app. split; [done|]. constructor; [|done]. by eapply Hpng.
Qed.

(** C7. The batch adapter hands to the exporter the one-level flattening
    of its input, in order, and the exporter numbers the records by their
    position in that list. The element at position [length pre] of the
    flattened list is processed with that position as its index, after the
    elements before it; the path built for an index ends in that index
    (before the extension); and when the element is a record that is saved,
    the trace of the adapter holds, right after the turns of the elements
    before it, the write of its file at the path of the naming scheme for
    the index [length pre]. The indices in the file names are the positions
    0, 1, 2, ... in the flattened list, whatever the grouping was. *)
Theorem C7_adapter_flattens_in_order results :
  save_images_from_ingestor_results output_directory fl results
  = save_images_to_disk output_directory fl (PList (flatten_spec results))
  ∧ (∀ pre document post s,
       process_all output_directory fl 0 (pre ++ document :: post) s
       = process_all output_directory fl (S (length pre)) post
           (process_document output_directory fl (length pre) document
              (process_all output_directory fl 0 pre s).2).2)
  ∧ (∀ idx clean subtype page_number image_type s,
       match build_image_path output_directory fl idx clean subtype page_number
               image_type s with
       | (Ok image_path, _) =>
           ∃ stem, image_path = stem ++ "_" ++ str_of_nat idx ++ "." ++ image_type
       | (Raise _, _) => True
       end)
  ∧ (∀ pre document post s w before metadata doc_type content clean subtype
        page_number cat image_type data img w1 w2,
       flatten_spec results = (pre ++ document :: post)%list →
       os_makedirs output_directory (st_world s) = (None, w) →
       before
       = (process_all output_directory fl 0 pre
            (State w (st_trace s ++ [EvMakedirs output_directory None])
               initial_counts)).2 →
       has_fields (length pre) document metadata doc_type content clean subtype
         page_number →
       py_truthy content = true →
       apply_filter fl doc_type subtype = (true, PStr cat) →
       determine_image_type metadata doc_type = Ok image_type →
       (if organize_by_type fl
        then os_makedirs (os_path_join output_directory cat) (st_world before)
        else (None, st_world before)) = (None, w1) →
       py_b64decode content = Ok data →
       image_open data = Ok img →
       image_save img
         (image_path_of output_directory fl (length pre) clean cat
            (py_str page_number) image_type)
         (str_upper (image_ext_of image_type)) w1 = (None, w2) →
       ∃ stem later,
         image_path_of output_directory fl (length pre) clean cat
           (py_str page_number) image_type
         = stem ++ "_" ++ str_of_nat (length pre) ++ "." ++ image_type
         ∧ st_trace (save_images_from_ingestor_results output_directory fl results s).2
           = (st_trace before
                ++ (if organize_by_type fl
                    then [EvMakedirs (os_path_join output_directory cat) None]
                    else [])
                ++ EvSave
                     (image_path_of output_directory fl (length pre) clean cat
                        (py_str page_number) image_type)
                     (str_upper (image_ext_of image_type)) None
                   :: later)%list).
Proof.
  split; [|split; [|split]].
  - unfold save_images_from_ingestor_results. by rewrite flatten_results_spec.
  - intros pre document post s. by rewrite process_all_app, process_all_cons.
  - intros idx clean subtype page_number image_type s.
    destruct (build_image_path _ _ _ _ _ _ _ s) as [[p|e] s'] eqn:Hpath; [|done].
    by eapply build_image_path_index.
  - intros pre document post s w before metadata doc_type content clean subtype
      page_number cat image_type data img w1 w2
      Hflat Hdir -> Hfields Htruthy Hfilter Htype Htypedir Hdec Hopen Hsave.
    destruct (image_path_of_index (length pre) clean cat (py_str page_number)
                image_type) as (stem & Hstem).
    exists stem.
    destruct (apply_filter_category _ _ _ _ Hfilter) as (cat' & [= <-] & Hcat).
    unfold save_images_from_ingestor_results.
    rewrite flatten_results_spec, app_nil_l, Hflat, save_images_to_disk_unfold.
    assert (py_truthy (PList (pre ++ document :: post)) = true) as ->.
    { cbn [py_truthy]. apply negb_true_iff, bool_decide_eq_false. by destruct pre. }
    cbn [negb py_iter]. rewrite Hdir. cbv zeta. cbn [snd st_trace].
    set (s1 := State w _ initial_counts) in *.
    rewrite process_all_app, process_all_cons. cbn [Nat.add].
    set (before := (process_all output_directory fl 0 pre s1).2) in *.
    destruct (total_is_sum_lookup _ cat
                (process_all_total_is_sum output_directory fl pre 0 s1
                   total_is_sum_initial) Hcat) as (n & t & Hn & Ht).
    fold before in Hn, Ht.
    rewrite (process_document_saves output_directory fl _ _ _ _ _ _ _ _ _ _ _ _ _
               _ _ _ _ Hfields Htruthy Hfilter Htype Htypedir Hdec Hopen Hsave Hn Ht).
    cbn [snd].
    match goal with
    | |- context [process_all output_directory fl (S (length pre)) post ?st] =>
        destruct (emits_process_all output_directory fl post (S (length pre)) st)
          as (new & -> & _)
    end.
    cbn [st_trace]. eexists. split; [exact Hstem|].
    rewrite <-!app_assoc. cbn [app]. reflexivity.
Qed.

End RecordProperties.

(** * Concrete runs: names, image types and the order of the batch *)

Lemma C7_adapter_flattens_in_order_witness :
  ∃ later,
    st_trace
      (save_images_from_ingestor_results (RT := toy_runtime) "out" default_flags
         [PList [chart_record png_1x1_b64 "a.pdf"; chart_record png_1x1_b64 "b.pdf"];
          chart_record png_1x1_b64 "c.pdf"] toy_state).2
    = (st_trace
         (process_all (RT := toy_runtime) "out" default_flags 0
            [chart_record png_1x1_b64 "a.pdf"; chart_record png_1x1_b64 "b.pdf"]
            (State (ToyFs ["out"] []) (st_trace toy_state ++ [EvMakedirs "out" None])
               initial_counts)).2
         ++ [EvMakedirs "out/chart" None]
         ++ EvSave "out/chart/c.pdf_p1_2.png" "PNG" None :: later)%list.
Proof.
  pose (before :=
          (process_all (RT := toy_runtime) "out" default_flags 0
             [chart_record png_1x1_b64 "a.pdf"; chart_record png_1x1_b64 "b.pdf"]
             (State (ToyFs ["out"] []) (st_trace toy_state ++ [EvMakedirs "out" None])
                initial_counts)).2).
  assert ((toy_makedirs "out/chart" (st_world before)).1 = None) as Hdir
    by (vm_compute; reflexivity).
  assert ((toy_image_save png_1x1 "out/chart/c.pdf_p1_2.png" "PNG"
             (toy_makedirs "out/chart" (st_world before)).2).1 = None) as Hsave
    by (vm_compute; reflexivity).
  assert (has_fields (RT := toy_runtime) 2 (chart_record png_1x1_b64 "c.pdf")
            (mk_dict
               [("content", PStr png_1x1_b64);
                ("source_metadata", mk_dict [("source_id", PStr "c.pdf")]);
                ("content_metadata",
                 mk_dict [("subtype", PStr "chart"); ("page_number", PInt 1)])])
            (PStr "structured") (PStr png_1x1_b64) "c.pdf" (PStr "chart") (PInt 1))
    as Hfields.
  { exists (mk_dict [("source_id", PStr "c.pdf")]), (PStr "c.pdf"),
      (mk_dict [("subtype", PStr "chart"); ("page_number", PInt 1)]), "c.pdf".
    repeat split; reflexivity. }
  destruct (proj2 (proj2 (proj2
              (C7_adapter_flattens_in_order (RT := toy_runtime) "out" default_flags
                 [PList [chart_record png_1x1_b64 "a.pdf";
                         chart_record png_1x1_b64 "b.pdf"];
                  chart_record png_1x1_b64 "c.pdf"])))
              [chart_record png_1x1_b64 "a.pdf"; chart_record png_1x1_b64 "b.pdf"]
              (chart_record png_1x1_b64 "c.pdf") [] toy_state (ToyFs ["out"] [])
              before _ (PStr "structured") (PStr png_1x1_b64) "c.pdf" (PStr "chart")
              (PInt 1) "chart" "png" png_1x1 png_1x1 _ _
              eq_refl eq_refl eq_refl Hfields eq_refl eq_refl eq_refl
              (pair_eta_fst _ _ Hdir) png_1x1_decodes eq_refl
              (pair_eta_fst _ _ Hsave))
    as (stem & later & _ & Htrace).
  exists later. exact Htrace.
Defined.

Lemma X16_name_given_to_the_sanitiser_witness :
  process_document (RT := toy_runtime) "out" default_flags 4 unnamed_chart_record
    (toy_state_with initial_counts)
  = (Ok (),
     State (ToyFs ["out/chart"] [("out/chart/document_4_p0_4.png", png_signature)])
       [EvMakedirs "out/chart" None;
        EvSave "out/chart/document_4_p0_4.png" "PNG" None;
        EvLog DEBUG (MsgSavedImage "chart" "out/chart/document_4_p0_4.png")]
       (<["total" := 1]> (<["chart" := 1]> initial_counts))).
Proof.
  refine (proj2 (X16_name_given_to_the_sanitiser (RT := toy_runtime) "out"
                   default_flags 4
                   (list_to_map
                      [("metadata",
                        mk_dict
                          [("content", PStr png_b64);
                           ("content_metadata",
                            mk_dict [("subtype", PStr "chart")])])])
                   (list_to_map
                      [("content", PStr png_b64);
                       ("content_metadata", mk_dict [("subtype", PStr "chart")])])
                   ∅ (PStr png_b64) (toy_state_with initial_counts) _ _ _ _ _)
            "document_4" (list_to_map [("subtype", PStr "chart")]) "chart" "png"
            png_signature png_signature (ToyFs ["out/chart"] [])
            (ToyFs ["out/chart"] [("out/chart/document_4_p0_4.png", png_signature)])
            0 0 _ _ _ _ _ _ _ _ _ _);
    try reflexivity; vm_compute; reflexivity.
Defined.

Lemma X17_image_type_and_format_witness :
  ∃ new,
    save_calls
      (st_trace (save_images_to_disk (RT := toy_runtime) "out" default_flags
                   (PList [chart_record png_1x1_b64 "a.pdf"]) toy_state).2)
    = (save_calls (st_trace toy_state) ++ new)%list
    ∧ Forall (λ call : string * string * option exn,
                call.1.2 = "PNG" ∧ ∃ stem, call.1.1 = stem ++ ".png") new.
Proof.
  assert ((save_images_to_disk (RT := toy_runtime) "out" default_flags
             (PList [chart_record png_1x1_b64 "a.pdf"]) toy_state).1
          = Ok (list_to_map
                  [("chart", 1); ("table", 0); ("infographic", 0);
                   ("page_image", 0); ("image", 0); ("total", 1)])) as Hrun
    by (vm_compute; reflexivity).
  refine (X17_image_type_and_format (RT := toy_runtime) "out" default_flags
            [chart_record png_1x1_b64 "a.pdf"] toy_state _ _ _
            (pair_eta_fst _ _ Hrun)).
  constructor; [|constructor]. intros doc_type [= <-]. reflexivity.
Defined.
